(** * buildbot_nix.models: the validated configuration schema

    A shallow embedding of [src/buildbot_nix/models.py].  The module declares
    pydantic models; what a declaration means at parse time is the validation
    library's behaviour, which is embedded here for the field types the
    module uses (module [Pydantic]); how the library reads a number out
    of a string or a float is left to two parameters.  Secret files are
    read through [read_secret_file]; reads are effects and are recorded in
    a read log, and objects are built in the same effectful setting
    (module [Build]). *)

From Stdlib Require Import ZArith Ascii String.
From Stdlib Require Import Floats.PrimFloat.
From stdpp Require Import base option list strings gmap fin_maps.

Local Open Scope string_scope.
Local Open Scope Z_scope.
Local Set Warnings "-register-all".

(** ** Errors *)

(** The three failures of the module: the validation library's
    [ValidationError], the module's own [InternalError] (line 10) and an
    I/O failure while reading a secret file.  The library reports every
    violation it finds in one [ValidationError]; what the report lists is
    not modelled. *)
Inductive error : Type :=
  | ValidationError
  | InternalError
  | IOError.

Inductive result (A : Type) : Type :=
  | Ok (a : A)
  | Err (e : error).
Arguments Ok {A} a.
Arguments Err {A} e.

Definition rbind {A B} (r : result A) (f : A → result B) : result B :=
  match r with
  | Ok a => f a
  | Err e => Err e
  end.

Notation "x ←r e ;; k" := (rbind e (λ x, k))
  (at level 100, e at next level, k at level 200, right associativity,
   format "x  ←r  e ;;  '/' k").

Definition is_ok {A} (r : result A) : bool :=
  match r with Ok _ => true | Err _ => false end.

Fixpoint rmapM {A B} (f : A → result B) (l : list A) : result (list B) :=
  match l with
  | [] => Ok []
  | x :: l' => y ←r f x ;; ys ←r rmapM f l' ;; Ok (y :: ys)
  end.

(** ** Input documents *)

(** A document is what [json.loads] hands to the models: null, booleans,
    integers, floats, strings, lists and dicts with string keys. *)
Inductive json : Type :=
  | JNull
  | JBool (b : bool)
  | JInt (z : Z)
  | JFloat (x : float)
  | JStr (s : string)
  | JList (l : list json)
  | JDict (m : gmap string json).

(** [pathlib.Path], held as the string it prints as ([str(path)]): two
    paths are equal when they print alike. *)
Definition Path : Type := string.

(** [s.split("/")] *)
Fixpoint split_slash (s : string) : list string :=
  match s with
  | EmptyString => [EmptyString]
  | String c s' =>
      if Ascii.eqb c "/" then EmptyString :: split_slash s'
      else match split_slash s' with
           | x :: l => String c x :: l
           | [] => [String c EmptyString]
           end
  end.

(** The root of a POSIX path: exactly two leading slashes are kept, one
    slash or three and more are one slash. *)
Definition path_root (s : string) : string :=
  match s with
  | String "/" (String "/" (String "/" _)) => "/"
  | String "/" (String "/" _) => "//"
  | String "/" _ => "/"
  | _ => ""
  end.

Definition path_parts (s : string) : list string :=
  filter (λ x, x ≠ "" ∧ x ≠ ".") (split_slash s).

(** [str(Path(s))] on POSIX: empty and "." components go, and so does a
    trailing slash; ".." stays; the empty path is ".". *)
Definition Path_of (s : string) : Path :=
  match path_root s, path_parts s with
  | EmptyString, [] => "."
  | root, parts => root +:+ String.concat "/" parts
  end.

(** ** The validation library, for the field types of this module *)

Module Pydantic.

(** How a union of two models chooses when both members accept the
    input.  Smart mode took the first member that validates up to
    pydantic 2.7 and takes the member with the most fields set since 2.8;
    the module pins no version, so the policy is a parameter. *)
Inductive union_policy : Type :=
  | FirstMatch
  | MostFieldsSet.

(** [str]: only a string is a string (no coercion of numbers). *)
Definition str_validator (v : json) : result string :=
  match v with
  | JStr s => Ok s
  | _ => Err ValidationError
  end.

(** [Path]: built from a string, [Path(s)]. *)
Definition path_validator (v : json) : result Path :=
  match v with
  | JStr s => Ok (Path_of s)
  | _ => Err ValidationError
  end.

(** How the library reads a number out of a string or of a float in lax
    mode.  Which spellings it takes (blanks, digit separators, a zero
    fraction, a length limit) has changed between its versions; the two
    readers are parameters and nothing is assumed of them. *)
Record readers : Type := Readers {
  str_as_int : string → option Z;
  float_as_int : float → option Z
}.

(** [int] in lax mode: an integer, a boolean (0 or 1), or a string or a
    float that reads as an integer. *)
Definition int_validator (rd : readers) (v : json) : result Z :=
  match v with
  | JInt z => Ok z
  | JBool b => Ok (Z.b2z b)
  | JStr s =>
      match str_as_int rd s with
      | Some z => Ok z
      | None => Err ValidationError
      end
  | JFloat x =>
      match float_as_int rd x with
      | Some z => Ok z
      | None => Err ValidationError
      end
  | _ => Err ValidationError
  end.

Definition ascii_lower (c : ascii) : ascii :=
  let n := N_of_ascii c in
  if ((65 <=? n) && (n <=? 90))%N then ascii_of_N (n + 32) else c.

Fixpoint lower (s : string) : string :=
  match s with
  | EmptyString => EmptyString
  | String c s' => String (ascii_lower c) (lower s')
  end.

Definition member (s : string) (l : list string) : bool :=
  bool_decide (s ∈ l).

Definition str_as_bool (s : string) : option bool :=
  let t := lower s in
  if member t ["0"; "f"; "n"; "no"; "off"; "false"] then Some false
  else if member t ["1"; "t"; "y"; "on"; "yes"; "true"] then Some true
  else None.

(** [bool] in lax mode: a boolean, the integers 0 and 1, a float that
    reads as 0 or 1, or one of the accepted words. *)
Definition bool_validator (rd : readers) (v : json) : result bool :=
  match v with
  | JBool b => Ok b
  | JInt 0 => Ok false
  | JInt 1 => Ok true
  | JStr s =>
      match str_as_bool s with
      | Some b => Ok b
      | None => Err ValidationError
      end
  | JFloat x =>
      match float_as_int rd x with
      | Some 0 => Ok false
      | Some 1 => Ok true
      | _ => Err ValidationError
      end
  | _ => Err ValidationError
  end.

(** [T | None] *)
Definition optional {A} (f : json → result A) (v : json)
  : result (option A) :=
  match v with
  | JNull => Ok None
  | _ => a ←r f v ;; Ok (Some a)
  end.

(** [list[T]] *)
Definition list_validator {A} (f : json → result A) (v : json)
  : result (list A) :=
  match v with
  | JList l => rmapM f l
  | _ => Err ValidationError
  end.

(** [dict[str, T]] *)
Definition dict_validator {A} (f : json → result A) (v : json)
  : result (gmap string A) :=
  match v with
  | JDict m =>
      l ←r rmapM (λ kv : string * json, y ←r f kv.2 ;; Ok (kv.1, y))
                 (map_to_list m) ;;
      Ok (list_to_map l)
  | _ => Err ValidationError
  end.

(** A model is validated from a dict; keys that name no field are
    ignored. *)
Definition model_validator {A} (f : gmap string json → result A)
    (v : json) : result A :=
  match v with
  | JDict m => f m
  | _ => Err ValidationError
  end.

(** A field without a default must be present, also when its type
    allows [None]. *)
Definition required {A} (m : gmap string json) (k : string)
    (f : json → result A) : result A :=
  match m !! k with
  | Some v => f v
  | None => Err ValidationError
  end.

(** [Field(default=d)]: the default stands in for a missing key and is
    not validated. *)
Definition with_default {A} (m : gmap string json) (k : string)
    (f : json → result A) (d : A) : result A :=
  match m !! k with
  | Some v => f v
  | None => Ok d
  end.

(** [Field(alias=a)] under [populate_by_name=True]: the alias is looked
    up first, then the field's own name. *)
Definition required_by_alias_or_name {A} (m : gmap string json)
    (a k : string) (f : json → result A) : result A :=
  match m !! a with
  | Some v => f v
  | None => required m k f
  end.

(** The number of the listed fields the input sets. *)
Definition fields_set_count (m : gmap string json) (ks : list string)
  : nat :=
  length (filter (λ k, is_Some (m !! k)) ks).

(** Smart-mode union of two models; each member reports how many of its
    fields the input set.  When only one accepts, it is taken; when both
    accept, the first wins under [FirstMatch], and under [MostFieldsSet]
    the later member replaces the earlier only with strictly more fields
    set. *)
Definition smart_union {A B} (pol : union_policy)
    (fa : json → result (A * nat)) (fb : json → result (B * nat))
    (v : json) : result (A + B) :=
  match fa v, fb v with
  | Ok (a, _), Err _ => Ok (inl a)
  | Err _, Ok (b, _) => Ok (inr b)
  | Err _, Err _ => Err ValidationError
  | Ok (a, ca), Ok (b, cb) =>
      match pol with
      | FirstMatch => Ok (inl a)
      | MostFieldsSet => if (ca <? cb)%nat then Ok (inr b) else Ok (inl a)
      end
  end.

(** [str | M] for a model [M]: a string is an exact match for [str] and
    is returned at once; anything else is left to the model. *)
Definition str_or_model {B} (fb : json → result B) (v : json)
  : result (string + B) :=
  match str_validator v with
  | Ok s => Ok (inl s)
  | Err _ => b ←r fb v ;; Ok (inr b)
  end.

(** A model as a member of a union: its value and its fields-set count. *)
Definition counted {A} (ks : list string)
    (f : gmap string json → result A) (v : json) : result (A * nat) :=
  model_validator (λ m, a ←r f m ;; Ok (a, fields_set_count m ks)) v.

End Pydantic.
Import Pydantic.

(** ** Secret files and the read log *)

(** The world an accessor runs in: the secret files on disk and the log of
    the reads done so far. *)
Record world : Type := World {
  files : Path → option string;
  reads : list Path
}.

(** Effectful code: a result and the world it leaves. *)
Definition M (A : Type) : Type := world → result A * world.

Definition ret {A} (a : A) : M A := λ w, (Ok a, w).
Definition raise {A} (e : error) : M A := λ w, (Err e, w).
Definition bind {A B} (c : M A) (f : A → M B) : M B :=
  λ w, match c w with
       | (Ok a, w') => f a w'
       | (Err e, w') => (Err e, w')
       end.

(** Pure code run where effects are possible. *)
Definition lift {A} (r : result A) : M A := λ w, (r, w).

Notation "x ←m e ;; k" := (bind e (λ x, k))
  (at level 100, e at next level, k at level 200, right associativity,
   format "x  ←m  e ;;  '/' k").

(** ** Building an object, step by step *)

(** [Cls(...)] runs the validator of each declared field in turn; a
    validator is code and may touch the world (the library's [FilePath]
    looks the file up on disk).  This module is the library's way through a
    class, with validators that may have effects.  A failed field ends the
    pass here; the library goes on to the other fields to report them all,
    which changes neither the outcome nor, for validators without effects,
    the world. *)
Module Build.

(** A validator with no effect, as a step. *)
Definition pure {A} (f : json → result A) (v : json) : M A := lift (f v).

Fixpoint mapM {A B} (f : A → M B) (l : list A) : M (list B) :=
  match l with
  | [] => ret []
  | x :: l' => y ←m f x ;; ys ←m mapM f l' ;; ret (y :: ys)
  end.

Definition optional {A} (f : json → M A) (v : json) : M (option A) :=
  match v with
  | JNull => ret None
  | _ => a ←m f v ;; ret (Some a)
  end.

Definition list_validator {A} (f : json → M A) (v : json) : M (list A) :=
  match v with
  | JList l => mapM f l
  | _ => raise ValidationError
  end.

Definition dict_validator {A} (f : json → M A) (v : json)
  : M (gmap string A) :=
  match v with
  | JDict m =>
      l ←m mapM (λ kv : string * json, y ←m f kv.2 ;; ret (kv.1, y))
                (map_to_list m) ;;
      ret (list_to_map l)
  | _ => raise ValidationError
  end.

Definition model_validator {A} (f : gmap string json → M A) (v : json)
  : M A :=
  match v with
  | JDict m => f m
  | _ => raise ValidationError
  end.

Definition required {A} (m : gmap string json) (k : string)
    (f : json → M A) : M A :=
  match m !! k with
  | Some v => f v
  | None => raise ValidationError
  end.

Definition with_default {A} (m : gmap string json) (k : string)
    (f : json → M A) (d : A) : M A :=
  match m !! k with
  | Some v => f v
  | None => ret d
  end.

Definition required_by_alias_or_name {A} (m : gmap string json)
    (a k : string) (f : json → M A) : M A :=
  match m !! a with
  | Some v => f v
  | None => required m k f
  end.

Definition counted {A} (ks : list string) (f : gmap string json → M A)
    (v : json) : M (A * nat) :=
  model_validator (λ m, a ←m f m ;; ret (a, fields_set_count m ks)) v.

(** Both members of a union are tried, the first before the second. *)
Definition smart_union {A B} (pol : union_policy)
    (fa : json → M (A * nat)) (fb : json → M (B * nat))
    (v : json) : M (A + B) :=
  λ w, let '(ra, w1) := fa v w in
       let '(rb, w2) := fb v w1 in
       (match ra, rb with
        | Ok (a, _), Err _ => Ok (inl a)
        | Err _, Ok (b, _) => Ok (inr b)
        | Err _, Err _ => Err ValidationError
        | Ok (a, ca), Ok (b, cb) =>
            match pol with
            | FirstMatch => Ok (inl a)
            | MostFieldsSet =>
                if (ca <? cb)%nat then Ok (inr b) else Ok (inl a)
            end
        end, w2).

Definition str_or_model {B} (fb : json → M B) (v : json)
  : M (string + B) :=
  match str_validator v with
  | Ok s => ret (inl s)
  | Err _ => b ←m fb v ;; ret (inr b)
  end.

End Build.

(** Modelled from the spec: [read_secret_file] of [buildbot_nix/secrets.py],
    which is not part of the sources at hand.  One call is one fresh read of
    the file (nothing is cached, the file is not changed) and returns its
    content as one trimmed string; a file that cannot be read is an I/O
    error handed to the caller.  [files] holds the trimmed contents. *)
Definition read_secret_file (p : Path) : M string :=
  λ w, let w' := World (files w) (reads w ++ [p]) in
       match files w p with
       | Some s => (Ok s, w')
       | None => (Err IOError, w')
       end.

(** What one read does to the world. *)
Definition after_read (p : Path) (w : world) : world :=
  World (files w) (reads w ++ [p]).

(** ** The build engine's primitives *)

(** [util.Secret(name)]: a handle on a secret, resolved by the engine when
    a step runs.  The handle keeps what it was given. *)
Inductive secret_handle : Type :=
  | Secret (secretName : option Path).

(** A command argument or environment value of a step: a plain string or
    [util.Interpolate(fmt)]. *)
Inductive renderable : Type :=
  | Literal (s : string)
  | UtilInterpolate (fmt : string).

(** [steps.ShellCommand(name=..., env=..., command=...)] *)
Record ShellCommand : Type := {
  sc_name : string;
  sc_env : gmap string renderable;
  sc_command : list renderable
}.

(** ** models.py *)

(** Line 14. *)
Definition exclude_fields (fields : list string)
  : gmap string (gmap string bool) :=
  list_to_map ((λ k, (k, {["exclude" := true]})) <$> fields).

(** Lines 18-21. *)
Inductive AuthBackendConfig : Type :=
  | github
  | gitea
  | none.

(** The value of an enumeration member, as it stands in a document. *)
Definition AuthBackendConfig_value (b : AuthBackendConfig) : string :=
  match b with
  | github => "github"
  | gitea => "gitea"
  | none => "none"
  end.

(** A [str] enumeration is validated by value. *)
Definition AuthBackendConfig_validator (v : json)
  : result AuthBackendConfig :=
  match v with
  | JStr s =>
      if String.eqb s "github" then Ok github
      else if String.eqb s "gitea" then Ok gitea
      else if String.eqb s "none" then Ok none
      else Err ValidationError
  | _ => Err ValidationError
  end.

(** Lines 24-51. *)
Module CachixConfig.

Record t : Type := {
  name : string;
  signing_key_file : option Path;
  auth_token_file : option Path
}.

Definition validate_fields (m : gmap string json) : result t :=
  n ←r required m "name" str_validator ;;
  sk ←r required m "signing_key_file" (optional path_validator) ;;
  at_ ←r required m "auth_token_file" (optional path_validator) ;;
  Ok {| name := n; signing_key_file := sk; auth_token_file := at_ |}.

Definition model_validate : json → result t :=
  model_validator validate_fields.

(** [CachixConfig(...)] *)
Definition construct_fields (m : gmap string json) : M t :=
  n ←m Build.required m "name" (Build.pure str_validator) ;;
  sk ←m Build.required m "signing_key_file"
          (Build.optional (Build.pure path_validator)) ;;
  at_ ←m Build.required m "auth_token_file"
           (Build.optional (Build.pure path_validator)) ;;
  ret {| name := n; signing_key_file := sk; auth_token_file := at_ |}.

Definition construct : json → M t :=
  Build.model_validator construct_fields.

Definition signing_key (self : t) : M string :=
  match signing_key_file self with
  | None => raise InternalError
  | Some p => read_secret_file p
  end.

Definition auth_token (self : t) : M string :=
  match auth_token_file self with
  | None => raise InternalError
  | Some p => read_secret_file p
  end.

Definition environment (self : t) : M (gmap string secret_handle) :=
  let environment : gmap string secret_handle := ∅ in
  let environment :=
    <["CACHIX_SIGNING_KEY" := Secret (signing_key_file self)]> environment in
  let environment :=
    <["CACHIX_AUTH_TOKEN" := Secret (auth_token_file self)]> environment in
  ret environment.

End CachixConfig.

(** Lines 54-80. *)
Module GiteaConfig.

Record t : Type := {
  instance_url : string;
  topic : option string;
  token_file : Path;
  webhook_secret_file : Path;
  project_cache_file : Path;
  oauth_id : option string;
  oauth_secret_file : option Path
}.

Definition validate_fields (m : gmap string json) : result t :=
  iu ←r required m "instance_url" str_validator ;;
  tp ←r required m "topic" (optional str_validator) ;;
  tf ←r with_default m "token_file" path_validator "gitea-token" ;;
  ws ←r with_default m "webhook_secret_file" path_validator
          "gitea-webhook-secret" ;;
  pc ←r with_default m "project_cache_file" path_validator
          "gitea-project-cache.json" ;;
  oi ←r required m "oauth_id" (optional str_validator) ;;
  os ←r required m "oauth_secret_file" (optional path_validator) ;;
  Ok {| instance_url := iu; topic := tp; token_file := tf;
        webhook_secret_file := ws; project_cache_file := pc;
        oauth_id := oi; oauth_secret_file := os |}.

Definition model_validate : json → result t :=
  model_validator validate_fields.

(** [GiteaConfig(...)] *)
Definition construct_fields (m : gmap string json) : M t :=
  iu ←m Build.required m "instance_url" (Build.pure str_validator) ;;
  tp ←m Build.required m "topic"
          (Build.optional (Build.pure str_validator)) ;;
  tf ←m Build.with_default m "token_file" (Build.pure path_validator)
          "gitea-token" ;;
  ws ←m Build.with_default m "webhook_secret_file"
          (Build.pure path_validator) "gitea-webhook-secret" ;;
  pc ←m Build.with_default m "project_cache_file"
          (Build.pure path_validator) "gitea-project-cache.json" ;;
  oi ←m Build.required m "oauth_id"
          (Build.optional (Build.pure str_validator)) ;;
  os ←m Build.required m "oauth_secret_file"
          (Build.optional (Build.pure path_validator)) ;;
  ret {| instance_url := iu; topic := tp; token_file := tf;
         webhook_secret_file := ws; project_cache_file := pc;
         oauth_id := oi; oauth_secret_file := os |}.

Definition construct : json → M t :=
  Build.model_validator construct_fields.

Definition token (self : t) : M string :=
  read_secret_file (token_file self).

Definition webhook_secret (self : t) : M string :=
  read_secret_file (webhook_secret_file self).

Definition oauth_secret (self : t) : M string :=
  match oauth_secret_file self with
  | None => raise InternalError
  | Some p => read_secret_file p
  end.

End GiteaConfig.

(** Lines 83-91. *)
Module GitHubLegacyConfig.

Record t : Type := { token_file : Path }.

Definition fields : list string := ["token_file"].

Definition validate_fields (m : gmap string json) : result t :=
  tf ←r required m "token_file" path_validator ;;
  Ok {| token_file := tf |}.

Definition model_validate : json → result t :=
  model_validator validate_fields.

(** [GitHubLegacyConfig(...)] *)
Definition construct_fields (m : gmap string json) : M t :=
  tf ←m Build.required m "token_file" (Build.pure path_validator) ;;
  ret {| token_file := tf |}.

Definition construct : json → M t :=
  Build.model_validator construct_fields.

Definition token (self : t) : M string :=
  read_secret_file (token_file self).

End GitHubLegacyConfig.

(** Lines 94-111. *)
Module GitHubAppConfig.

Record t : Type := {
  id : Z;
  secret_key_file : Path;
  installation_token_map_file : Path;
  project_id_map_file : Path;
  jwt_token_map : Path
}.

Definition fields : list string :=
  ["id"; "secret_key_file"; "installation_token_map_file";
   "project_id_map_file"; "jwt_token_map"].

Definition validate_fields (rd : readers) (m : gmap string json)
  : result t :=
  i ←r required m "id" (int_validator rd) ;;
  sk ←r required m "secret_key_file" path_validator ;;
  it ←r with_default m "installation_token_map_file" path_validator
          "github-app-installation-token-map.json" ;;
  pi ←r with_default m "project_id_map_file" path_validator
          "github-app-project-id-map-name.json" ;;
  jt ←r with_default m "jwt_token_map" path_validator
          "github-app-jwt-token" ;;
  Ok {| id := i; secret_key_file := sk;
        installation_token_map_file := it; project_id_map_file := pi;
        jwt_token_map := jt |}.

Definition model_validate (rd : readers) : json → result t :=
  model_validator (validate_fields rd).

(** [GitHubAppConfig(...)] *)
Definition construct_fields (rd : readers) (m : gmap string json) : M t :=
  i ←m Build.required m "id" (Build.pure (int_validator rd)) ;;
  sk ←m Build.required m "secret_key_file" (Build.pure path_validator) ;;
  it ←m Build.with_default m "installation_token_map_file"
          (Build.pure path_validator)
          "github-app-installation-token-map.json" ;;
  pi ←m Build.with_default m "project_id_map_file"
          (Build.pure path_validator)
          "github-app-project-id-map-name.json" ;;
  jt ←m Build.with_default m "jwt_token_map" (Build.pure path_validator)
          "github-app-jwt-token" ;;
  ret {| id := i; secret_key_file := sk;
         installation_token_map_file := it; project_id_map_file := pi;
         jwt_token_map := jt |}.

Definition construct (rd : readers) : json → M t :=
  Build.model_validator (construct_fields rd).

Definition secret_key (self : t) : M string :=
  read_secret_file (secret_key_file self).

End GitHubAppConfig.

(** Lines 114-132. *)
Module GitHubConfig.

Record t : Type := {
  auth_type : GitHubLegacyConfig.t + GitHubAppConfig.t;
  topic : option string;
  project_cache_file : Path;
  webhook_secret_file : Path;
  oauth_id : option string;
  oauth_secret_file : option Path
}.

(** [auth_type: GitHubLegacyConfig | GitHubAppConfig] *)
Definition auth_type_validator (rd : readers) (pol : union_policy)
  : json → result (GitHubLegacyConfig.t + GitHubAppConfig.t) :=
  smart_union pol
    (counted GitHubLegacyConfig.fields GitHubLegacyConfig.validate_fields)
    (counted GitHubAppConfig.fields (GitHubAppConfig.validate_fields rd)).

Definition validate_fields (rd : readers) (pol : union_policy)
    (m : gmap string json) : result t :=
  au ←r required m "auth_type" (auth_type_validator rd pol) ;;
  tp ←r required m "topic" (optional str_validator) ;;
  pc ←r with_default m "project_cache_file" path_validator
          "github-project-cache-v1.json" ;;
  ws ←r with_default m "webhook_secret_file" path_validator
          "github-webhook-secret" ;;
  oi ←r required m "oauth_id" (optional str_validator) ;;
  os ←r required m "oauth_secret_file" (optional path_validator) ;;
  Ok {| auth_type := au; topic := tp; project_cache_file := pc;
        webhook_secret_file := ws; oauth_id := oi;
        oauth_secret_file := os |}.

Definition model_validate (rd : readers) (pol : union_policy)
  : json → result t :=
  model_validator (validate_fields rd pol).

(** [GitHubConfig(...)] *)
Definition construct_fields (rd : readers) (pol : union_policy)
    (m : gmap string json) : M t :=
  au ←m Build.required m "auth_type"
          (Build.smart_union pol
             (Build.counted GitHubLegacyConfig.fields
                GitHubLegacyConfig.construct_fields)
             (Build.counted GitHubAppConfig.fields
                (GitHubAppConfig.construct_fields rd))) ;;
  tp ←m Build.required m "topic"
          (Build.optional (Build.pure str_validator)) ;;
  pc ←m Build.with_default m "project_cache_file"
          (Build.pure path_validator) "github-project-cache-v1.json" ;;
  ws ←m Build.with_default m "webhook_secret_file"
          (Build.pure path_validator) "github-webhook-secret" ;;
  oi ←m Build.required m "oauth_id"
          (Build.optional (Build.pure str_validator)) ;;
  os ←m Build.required m "oauth_secret_file"
          (Build.optional (Build.pure path_validator)) ;;
  ret {| auth_type := au; topic := tp; project_cache_file := pc;
         webhook_secret_file := ws; oauth_id := oi;
         oauth_secret_file := os |}.

Definition construct (rd : readers) (pol : union_policy) : json → M t :=
  Build.model_validator (construct_fields rd pol).

Definition webhook_secret (self : t) : M string :=
  read_secret_file (webhook_secret_file self).

Definition oauth_secret (self : t) : M string :=
  match oauth_secret_file self with
  | None => raise InternalError
  | Some p => read_secret_file p
  end.

End GitHubConfig.


(** Lines 138-142. *)
Module Interpolate.

Record t : Type := {
  nix_type : string;
  value : string
}.

(** [nix_type] has the alias [_type] and the model sets
    [populate_by_name=True]. *)
Definition validate_fields (m : gmap string json) : result t :=
  nt ←r required_by_alias_or_name m "_type" "nix_type" str_validator ;;
  v ←r required m "value" str_validator ;;
  Ok {| nix_type := nt; value := v |}.

Definition model_validate : json → result t :=
  model_validator validate_fields.

(** [Interpolate(...)] *)
Definition construct_fields (m : gmap string json) : M t :=
  nt ←m Build.required_by_alias_or_name m "_type" "nix_type"
          (Build.pure str_validator) ;;
  v ←m Build.required m "value" (Build.pure str_validator) ;;
  ret {| nix_type := nt; value := v |}.

Definition construct : json → M t :=
  Build.model_validator construct_fields.

(** [model_dump(by_alias=...)]: the discriminator goes out under its
    alias only when asked for (the comment of lines 135-137). *)
Definition model_dump (by_alias : bool) (self : t) : json :=
  JDict (<[(if by_alias then "_type" else "nix_type") :=
             JStr (nix_type self)]>
         (<["value" := JStr (value self)]> ∅)).

End Interpolate.

(** Lines 145-160. *)
Module PostBuildStep.

Record t : Type := {
  name : string;
  environment : gmap string (string + Interpolate.t);
  command : list (string + Interpolate.t)
}.

(** [str | Interpolate] *)
Definition str_or_Interpolate : json → result (string + Interpolate.t) :=
  str_or_model Interpolate.model_validate.

Definition validate_fields (m : gmap string json) : result t :=
  n ←r required m "name" str_validator ;;
  e ←r required m "environment" (dict_validator str_or_Interpolate) ;;
  c ←r required m "command" (list_validator str_or_Interpolate) ;;
  Ok {| name := n; environment := e; command := c |}.

Definition model_validate : json → result t :=
  model_validator validate_fields.

(** [PostBuildStep(...)] *)
Definition construct_fields (m : gmap string json) : M t :=
  n ←m Build.required m "name" (Build.pure str_validator) ;;
  e ←m Build.required m "environment"
         (Build.dict_validator (Build.str_or_model Interpolate.construct)) ;;
  c ←m Build.required m "command"
         (Build.list_validator (Build.str_or_model Interpolate.construct)) ;;
  ret {| name := n; environment := e; command := c |}.

Definition construct : json → M t :=
  Build.model_validator construct_fields.

(** Lines 151-154.  [util.Interpolate(value.value)] stands as the
    engine's constructor applied to the string; whether the engine takes
    the string as a format is the engine's own check and is outside this
    model. *)
Definition maybe_interpolate (value : string + Interpolate.t)
  : renderable :=
  match value with
  | inl s => Literal s
  | inr i => UtilInterpolate (Interpolate.value i)
  end.

(** Line 158 builds the environment from the keys it iterates over:
    [{k: maybe_interpolate(k) for k in self.environment}].  The result is
    what [steps.ShellCommand] is called with; the engine's own checks on a
    step (its name is at most 50 characters long) are outside this
    model. *)
Definition to_buildstep (self : t) : ShellCommand :=
  {| sc_name := name self;
     sc_env := map_imap (λ k _, Some (maybe_interpolate (inl k)))
                        (environment self);
     sc_command := maybe_interpolate <$> command self |}.

End PostBuildStep.

(** Lines 163-186. *)
Module BuildbotNixConfig.

Record t : Type := {
  db_url : string;
  auth_backend : AuthBackendConfig;
  build_retries : Z;
  cachix : option CachixConfig.t;
  gitea : option GiteaConfig.t;
  github : option GitHubConfig.t;
  admins : list string;
  workers_file : Path;
  build_systems : list string;
  eval_max_memory_size : Z;
  eval_worker_count : option Z;
  nix_workers_secret_file : Path;
  domain : string;
  webhook_base_url : string;
  use_https : bool;
  outputs_path : option Path;
  url : string;
  post_build_steps : list PostBuildStep.t;
  job_report_limit : option Z
}.

Definition validate_fields (rd : readers) (pol : union_policy)
    (m : gmap string json) : result t :=
  f1 ←r required m "db_url" str_validator ;;
  f2 ←r required m "auth_backend" AuthBackendConfig_validator ;;
  f3 ←r required m "build_retries" (int_validator rd) ;;
  f4 ←r required m "cachix" (optional CachixConfig.model_validate) ;;
  f5 ←r required m "gitea" (optional GiteaConfig.model_validate) ;;
  f6 ←r required m "github"
          (optional (GitHubConfig.model_validate rd pol)) ;;
  f7 ←r required m "admins" (list_validator str_validator) ;;
  f8 ←r required m "workers_file" path_validator ;;
  f9 ←r required m "build_systems" (list_validator str_validator) ;;
  f10 ←r required m "eval_max_memory_size" (int_validator rd) ;;
  f11 ←r required m "eval_worker_count" (optional (int_validator rd)) ;;
  f12 ←r with_default m "nix_workers_secret_file" path_validator
           "buildbot-nix-workers" ;;
  f13 ←r required m "domain" str_validator ;;
  f14 ←r required m "webhook_base_url" str_validator ;;
  f15 ←r required m "use_https" (bool_validator rd) ;;
  f16 ←r required m "outputs_path" (optional path_validator) ;;
  f17 ←r required m "url" str_validator ;;
  f18 ←r required m "post_build_steps"
           (list_validator PostBuildStep.model_validate) ;;
  f19 ←r required m "job_report_limit" (optional (int_validator rd)) ;;
  Ok {| db_url := f1; auth_backend := f2; build_retries := f3;
        cachix := f4; gitea := f5; github := f6; admins := f7;
        workers_file := f8; build_systems := f9;
        eval_max_memory_size := f10; eval_worker_count := f11;
        nix_workers_secret_file := f12; domain := f13;
        webhook_base_url := f14; use_https := f15; outputs_path := f16;
        url := f17; post_build_steps := f18; job_report_limit := f19 |}.

Definition model_validate (rd : readers) (pol : union_policy)
  : json → result t :=
  model_validator (validate_fields rd pol).

(** [BuildbotNixConfig(...)] *)
Definition construct_fields (rd : readers) (pol : union_policy)
    (m : gmap string json) : M t :=
  f1 ←m Build.required m "db_url" (Build.pure str_validator) ;;
  f2 ←m Build.required m "auth_backend"
          (Build.pure AuthBackendConfig_validator) ;;
  f3 ←m Build.required m "build_retries"
          (Build.pure (int_validator rd)) ;;
  f4 ←m Build.required m "cachix"
          (Build.optional CachixConfig.construct) ;;
  f5 ←m Build.required m "gitea" (Build.optional GiteaConfig.construct) ;;
  f6 ←m Build.required m "github"
          (Build.optional (GitHubConfig.construct rd pol)) ;;
  f7 ←m Build.required m "admins"
          (Build.list_validator (Build.pure str_validator)) ;;
  f8 ←m Build.required m "workers_file" (Build.pure path_validator) ;;
  f9 ←m Build.required m "build_systems"
          (Build.list_validator (Build.pure str_validator)) ;;
  f10 ←m Build.required m "eval_max_memory_size"
           (Build.pure (int_validator rd)) ;;
  f11 ←m Build.required m "eval_worker_count"
           (Build.optional (Build.pure (int_validator rd))) ;;
  f12 ←m Build.with_default m "nix_workers_secret_file"
           (Build.pure path_validator) "buildbot-nix-workers" ;;
  f13 ←m Build.required m "domain" (Build.pure str_validator) ;;
  f14 ←m Build.required m "webhook_base_url" (Build.pure str_validator) ;;
  f15 ←m Build.required m "use_https" (Build.pure (bool_validator rd)) ;;
  f16 ←m Build.required m "outputs_path"
           (Build.optional (Build.pure path_validator)) ;;
  f17 ←m Build.required m "url" (Build.pure str_validator) ;;
  f18 ←m Build.required m "post_build_steps"
           (Build.list_validator PostBuildStep.construct) ;;
  f19 ←m Build.required m "job_report_limit"
           (Build.optional (Build.pure (int_validator rd))) ;;
  ret {| db_url := f1; auth_backend := f2; build_retries := f3;
         cachix := f4; gitea := f5; github := f6; admins := f7;
         workers_file := f8; build_systems := f9;
         eval_max_memory_size := f10; eval_worker_count := f11;
         nix_workers_secret_file := f12; domain := f13;
         webhook_base_url := f14; use_https := f15; outputs_path := f16;
         url := f17; post_build_steps := f18; job_report_limit := f19 |}.

Definition construct (rd : readers) (pol : union_policy) : json → M t :=
  Build.model_validator (construct_fields rd pol).

Definition nix_workers_secret (self : t) : M string :=
  read_secret_file (nix_workers_secret_file self).

End BuildbotNixConfig.

(** Building an object comes to validating the document and leaves the
    world alone. *)
Definition validates_only {X A} (construct : X → M A)
    (model_validate : X → result A) : Prop :=
  ∀ x w, construct x w = (model_validate x, w).

(** Reading a key of a dumped object. *)
Definition dict_get (v : json) (k : string) : option json :=
  match v with
  | JDict m => m !! k
  | _ => None
  end.

(** The two members of [GitHubConfig.auth_type]. *)
Inductive auth_variant : Type :=
  | Legacy
  | App.

Definition variant_of (r : GitHubLegacyConfig.t + GitHubAppConfig.t)
  : auth_variant :=
  match r with
  | inl _ => Legacy
  | inr _ => App
  end.

(** What a document holds under a key. *)
Definition path_like (v : json) : bool :=
  match v with
  | JStr _ => true
  | _ => false
  end.

Definition int_like (rd : readers) (v : json) : bool :=
  match v with
  | JInt _ | JBool _ => true
  | JStr s => bool_decide (is_Some (str_as_int rd s))
  | JFloat x => bool_decide (is_Some (float_as_int rd x))
  | _ => false
  end.

Definition holds (m : gmap string json) (k : string) (p : json → bool)
  : bool :=
  match m !! k with
  | Some v => p v
  | None => false
  end.

Definition holds_or_omits (m : gmap string json) (k : string)
    (p : json → bool) : bool :=
  match m !! k with
  | Some v => p v
  | None => true
  end.

(** The legacy shape: an object with a token-file path. *)
Definition legacy_shape (v : json) : bool :=
  match v with
  | JDict m => holds m "token_file" path_like
  | _ => false
  end.

(** The app shape: an object with an application id and a secret-key-file
    path, and with a path under each map-file key it has. *)
Definition app_shape (rd : readers) (v : json) : bool :=
  match v with
  | JDict m =>
      holds m "id" (int_like rd)
      && holds m "secret_key_file" path_like
      && holds_or_omits m "installation_token_map_file" path_like
      && holds_or_omits m "project_id_map_file" path_like
      && holds_or_omits m "jwt_token_map" path_like
  | _ => false
  end.

(** The member a policy settles on when a document has both shapes. *)
Definition tie_break (pol : union_policy) : auth_variant :=
  match pol with
  | FirstMatch => Legacy
  | MostFieldsSet => App
  end.

(** What it means for [Field(default=d)] on key [k]: in a document that
    validates, a missing [k] gives [d]; and leaving [k] out of a document
    that validates gives one that validates, with [d]. *)
Definition defaults_to {A} (model_validate : json → result A)
    (k : string) (field : A → Path) (d : Path) : Prop :=
  ∀ m c, model_validate (JDict m) = Ok c →
    (m !! k = None → field c = d)
    ∧ (∃ c', model_validate (JDict (delete k m)) = Ok c' ∧ field c' = d).

(** A validator that fails only with [ValidationError]. *)
Definition validation_only {X A} (f : X → result A) : Prop :=
  ∀ x e, f x = Err e → e = ValidationError.

(** The keys of a root document whose fields are declared without a
    default (lines 164-182), and all its keys. *)
Definition root_required_keys : list string :=
  ["db_url"; "auth_backend"; "build_retries"; "cachix"; "gitea"; "github";
   "admins"; "workers_file"; "build_systems"; "eval_max_memory_size";
   "eval_worker_count"; "domain"; "webhook_base_url"; "use_https";
   "outputs_path"; "url"; "post_build_steps"; "job_report_limit"].

Definition root_keys : list string :=
  "nix_workers_secret_file" :: root_required_keys.

(** A model rejects every document that leaves out one of the keys [ks]. *)
Definition requires {A} (model_validate : json → result A)
    (ks : list string) : Prop :=
  ∀ m k, k ∈ ks → m !! k = None →
         model_validate (JDict m) = Err ValidationError.

(** A field with a default, when the document has its key: the path
    built from the document's string is taken, and a value that is no
    string is rejected. *)
Definition taken_from_document {A} (model_validate : json → result A)
    (k : string) (field : A → Path) : Prop :=
  ∀ m v, m !! k = Some v →
    (∀ c, model_validate (JDict m) = Ok c →
          ∃ p, v = JStr p ∧ field c = Path_of p)
    ∧ ((∀ p, v ≠ JStr p) → model_validate (JDict m) = Err ValidationError).

(** A model ignores every key of a document outside [ks]. *)
Definition ignores {A} (model_validate : json → result A)
    (ks : list string) : Prop :=
  ∀ m k v, k ∉ ks →
           model_validate (JDict (<[k := v]> m)) = model_validate (JDict m).

(** A field on key [k] is validated by [f]: when the document validates,
    the object holds what [f] makes of the value under [k]; when [f]
    rejects that value, the document is rejected. *)
Definition validated_by {A B} (model_validate : json → result A)
    (k : string) (f : json → result B) (field : A → B) : Prop :=
  ∀ m v, m !! k = Some v →
    (∀ c, model_validate (JDict m) = Ok c → f v = Ok (field c))
    ∧ (∀ e, f v = Err e → model_validate (JDict m) = Err ValidationError).

(** * Inputs used in examples *)

(** The documents below hold no numeric string and no float, so any
    readers do for them; these read none. *)
Definition no_coercion : readers :=
  {| str_as_int := λ _, None; float_as_int := λ _, None |}.

(** The step of the end-to-end example, with one environment binding whose
    value is deferred. *)
Definition echo_revision : PostBuildStep.t :=
  let rev := {| Interpolate.nix_type := "Interpolate";
                Interpolate.value := "prop:revision" |} in
  {| PostBuildStep.name := "echo";
     PostBuildStep.environment := {["REV" := inr rev]};
     PostBuildStep.command := [inl "echo"; inr rev] |}.

(** A disk with one secret on it and nothing read yet. *)
Definition one_secret_world : world :=
  World (λ p, if String.eqb p "/run/secrets/tok" then Some "s3cr3t" else None)
        [].

(** The Cachix block of the end-to-end example: no signing key, an auth
    token file. *)
Definition mycache : CachixConfig.t :=
  {| CachixConfig.name := "mycache";
     CachixConfig.signing_key_file := None;
     CachixConfig.auth_token_file := Some "/run/secrets/tok" |}.

Definition gitea_without_oauth : GiteaConfig.t :=
  {| GiteaConfig.instance_url := "https://gitea.example";
     GiteaConfig.topic := None;
     GiteaConfig.token_file := "gitea-token";
     GiteaConfig.webhook_secret_file := "gitea-webhook-secret";
     GiteaConfig.project_cache_file := "gitea-project-cache.json";
     GiteaConfig.oauth_id := None;
     GiteaConfig.oauth_secret_file := None |}.

Definition github_without_oauth : GitHubConfig.t :=
  {| GitHubConfig.auth_type :=
       inl {| GitHubLegacyConfig.token_file := "github-token" |};
     GitHubConfig.topic := None;
     GitHubConfig.project_cache_file := "github-project-cache-v1.json";
     GitHubConfig.webhook_secret_file := "github-webhook-secret";
     GitHubConfig.oauth_id := None;
     GitHubConfig.oauth_secret_file := None |}.

Definition cachix_without_token : CachixConfig.t :=
  {| CachixConfig.name := "mycache";
     CachixConfig.signing_key_file := Some "/run/secrets/key";
     CachixConfig.auth_token_file := None |}.

(** The document of [echo_revision], as the end-to-end example writes it. *)
Definition interpolate_revision_doc : json :=
  JDict (<["_type" := JStr "Interpolate"]>
         (<["value" := JStr "prop:revision"]> ∅)).

Definition echo_revision_doc : json :=
  JDict (<["name" := JStr "echo"]>
         (<["environment" := JDict {["REV" := interpolate_revision_doc]}]>
          (<["command" := JList [JStr "echo"; interpolate_revision_doc]]>
           ∅))).

(** The document of [mycache]. *)
Definition cachix_doc : json :=
  JDict (<["name" := JStr "mycache"]>
         (<["signing_key_file" := JNull]>
          (<["auth_token_file" := JStr "/run/secrets/tok"]> ∅))).

Definition gitea_with_oauth : GiteaConfig.t :=
  {| GiteaConfig.instance_url := "https://gitea.example";
     GiteaConfig.topic := Some "build-with-buildbot";
     GiteaConfig.token_file := "gitea-token";
     GiteaConfig.webhook_secret_file := "gitea-webhook-secret";
     GiteaConfig.project_cache_file := "gitea-project-cache.json";
     GiteaConfig.oauth_id := Some "buildbot";
     GiteaConfig.oauth_secret_file := Some "gitea-oauth-secret" |}.

Definition github_with_oauth : GitHubConfig.t :=
  {| GitHubConfig.auth_type :=
       inl {| GitHubLegacyConfig.token_file := "github-token" |};
     GitHubConfig.topic := Some "build-with-buildbot";
     GitHubConfig.project_cache_file := "github-project-cache-v1.json";
     GitHubConfig.webhook_secret_file := "github-webhook-secret";
     GitHubConfig.oauth_id := Some "buildbot";
     GitHubConfig.oauth_secret_file := Some "github-oauth-secret" |}.

Definition legacy_doc : json :=
  JDict (<["token_file" := JStr "github-token"]> ∅).

Definition app_doc : json :=
  JDict (<["id" := JInt 1234]>
         (<["secret_key_file" := JStr "github-app-secret-key"]> ∅)).

Definition both_shapes_doc : json :=
  JDict (<["token_file" := JStr "github-token"]>
         (<["id" := JInt 1234]>
          (<["secret_key_file" := JStr "github-app-secret-key"]> ∅))).

Definition neither_shape_doc : json :=
  JDict (<["id" := JInt 1234]> ∅).

(** A root document with every required key, no forge block, no Cachix
    block and no post-build step; [backend] is its [auth_backend]. *)
Definition root_fields (backend : json) : gmap string json :=
  <["db_url" := JStr "postgresql://@/buildbot"]>
  (<["auth_backend" := backend]>
  (<["build_retries" := JInt 1]>
  (<["cachix" := JNull]>
  (<["gitea" := JNull]>
  (<["github" := JNull]>
  (<["admins" := JList [JStr "mic92"]]>
  (<["workers_file" := JStr "/run/secrets/workers.json"]>
  (<["build_systems" := JList [JStr "x86_64-linux"]]>
  (<["eval_max_memory_size" := JInt 2048]>
  (<["eval_worker_count" := JNull]>
  (<["domain" := JStr "buildbot.example"]>
  (<["webhook_base_url" := JStr "https://buildbot.example"]>
  (<["use_https" := JBool true]>
  (<["outputs_path" := JNull]>
  (<["url" := JStr "https://buildbot.example"]>
  (<["post_build_steps" := JList []]>
  (<["job_report_limit" := JNull]> ∅))))))))))))))))).

(** A Gitea block that leaves out every key with a default. *)
Definition gitea_fields : gmap string json :=
  <["instance_url" := JStr "https://gitea.example"]>
  (<["topic" := JNull]>
  (<["oauth_id" := JNull]>
  (<["oauth_secret_file" := JNull]> ∅))).

(** A disk that holds the Gitea token under its default name. *)
Definition gitea_world : world :=
  World (λ p, if String.eqb p "gitea-token" then Some "t0k3n" else None) [].

(** * Properties *)

Lemma rbind_ok_inv {A B} (r : result A) (f : A → result B) (b : B) :
  rbind r f = Ok b → ∃ a, r = Ok a ∧ f a = Ok b.
Proof. destruct r; simpl; [eauto|discriminate]. Qed.

(** ** Paths *)

(** The declared defaults print as they are written. *)
Lemma default_paths_normal :
  Forall (λ s, Path_of s = s)
    ["gitea-token"; "gitea-webhook-secret"; "gitea-project-cache.json";
     "github-app-installation-token-map.json";
     "github-app-project-id-map-name.json"; "github-app-jwt-token";
     "github-project-cache-v1.json"; "github-webhook-secret";
     "buildbot-nix-workers"].
Proof. repeat constructor. Qed.

(** ** Post-build steps *)

Lemma to_buildstep_command (s : PostBuildStep.t) :
  sc_command (PostBuildStep.to_buildstep s)
  = PostBuildStep.maybe_interpolate <$> PostBuildStep.command s.
Proof. reflexivity. Qed.

Lemma to_buildstep_env_lookup (s : PostBuildStep.t) (k : string) :
  sc_env (PostBuildStep.to_buildstep s) !! k
  = (λ _, Literal k) <$> PostBuildStep.environment s !! k.
Proof.
  unfold PostBuildStep.to_buildstep; simpl.
  rewrite map_lookup_imap.
  destruct (PostBuildStep.environment s !! k); reflexivity.
Qed.

Lemma echo_revision_validated :
  PostBuildStep.model_validate echo_revision_doc = Ok echo_revision.
Proof. vm_compute. reflexivity. Qed.

(** C1: at [echo_revision] the command is translated element-wise ("echo"
    stays literal, the Interpolate becomes the engine's interpolation of
    "prop:revision"), but the environment binds REV to the literal "REV",
    its own name, and not to the translation of the value bound to it. *)
Theorem to_buildstep_env_binds_names :
  sc_command (PostBuildStep.to_buildstep echo_revision)
    = [Literal "echo"; UtilInterpolate "prop:revision"]
  ∧ PostBuildStep.environment echo_revision !! "REV"
    = Some (inr {| Interpolate.nix_type := "Interpolate";
                   Interpolate.value := "prop:revision" |})
  ∧ sc_env (PostBuildStep.to_buildstep echo_revision) !! "REV"
    = Some (Literal "REV")
  ∧ sc_env (PostBuildStep.to_buildstep echo_revision) !! "REV"
    ≠ PostBuildStep.maybe_interpolate
        <$> PostBuildStep.environment echo_revision !! "REV".
Proof.
  assert (He : PostBuildStep.environment echo_revision !! "REV"
               = Some (inr {| Interpolate.nix_type := "Interpolate";
                              Interpolate.value := "prop:revision" |})).
  { unfold echo_revision; simpl. apply lookup_singleton_eq. }
  split; [reflexivity|]. split; [exact He|].
  rewrite to_buildstep_env_lookup, He. simpl.
  split; [reflexivity|discriminate].
Qed.

(** ** Secret accessors *)

Lemma read_secret_file_world (p : Path) (w : world) :
  (read_secret_file p w).2 = after_read p w.
Proof. unfold read_secret_file. destruct (files w p); reflexivity. Qed.

Lemma read_secret_file_result (p : Path) (w : world) :
  (read_secret_file p w).1
  = match files w p with Some s => Ok s | None => Err IOError end.
Proof. unfold read_secret_file. destruct (files w p); reflexivity. Qed.

(** C2: an accessor whose optional file reference is unset fails with
    [InternalError]; it returns no string and reads nothing. *)
Theorem unset_reference_raises_InternalError (w : world) :
  (∀ c, CachixConfig.signing_key_file c = None →
        CachixConfig.signing_key c w = (Err InternalError, w))
  ∧ (∀ c, CachixConfig.auth_token_file c = None →
          CachixConfig.auth_token c w = (Err InternalError, w))
  ∧ (∀ c, GiteaConfig.oauth_secret_file c = None →
          GiteaConfig.oauth_secret c w = (Err InternalError, w))
  ∧ (∀ c, GitHubConfig.oauth_secret_file c = None →
          GitHubConfig.oauth_secret c w = (Err InternalError, w)).
Proof.
  repeat split; intros c Hc.
  - unfold CachixConfig.signing_key. rewrite Hc. reflexivity.
  - unfold CachixConfig.auth_token. rewrite Hc. reflexivity.
  - unfold GiteaConfig.oauth_secret. rewrite Hc. reflexivity.
  - unfold GitHubConfig.oauth_secret. rewrite Hc. reflexivity.
Qed.

Lemma unset_reference_raises_InternalError_witness :
  CachixConfig.signing_key mycache one_secret_world
    = (Err InternalError, one_secret_world)
  ∧ CachixConfig.auth_token cachix_without_token one_secret_world
    = (Err InternalError, one_secret_world)
  ∧ GiteaConfig.oauth_secret gitea_without_oauth one_secret_world
    = (Err InternalError, one_secret_world)
  ∧ GitHubConfig.oauth_secret github_without_oauth one_secret_world
    = (Err InternalError, one_secret_world).
Proof.
  destruct (unset_reference_raises_InternalError one_secret_world)
    as (H1 & H2 & H3 & H4).
  split; [apply H1; reflexivity|].
  split; [apply H2; reflexivity|].
  split; [apply H3; reflexivity|apply H4; reflexivity].
Defined.

(** The environment never touches the disk: it wraps the two references as
    they are. *)
Lemma environment_reads_nothing (c : CachixConfig.t) (w : world) :
  ∃ env, CachixConfig.environment c w = (Ok env, w)
         ∧ env !! "CACHIX_SIGNING_KEY"
           = Some (Secret (CachixConfig.signing_key_file c))
         ∧ env !! "CACHIX_AUTH_TOKEN"
           = Some (Secret (CachixConfig.auth_token_file c)).
Proof.
  eexists. split; [reflexivity|]. split.
  - rewrite lookup_insert_ne by done. apply lookup_insert_eq.
  - apply lookup_insert_eq.
Qed.

(** C3: for [mycache] (signing key unset, auth token set) the environment
    does not fail and is not the mapping with the auth-token handle alone:
    it also binds CACHIX_SIGNING_KEY, to a handle on the unset reference.
    Nothing is read. *)
Theorem environment_wraps_unset_reference (w : world) :
  ∃ env, CachixConfig.environment mycache w = (Ok env, w)
         ∧ env !! "CACHIX_SIGNING_KEY" = Some (Secret None)
         ∧ env !! "CACHIX_AUTH_TOKEN" = Some (Secret (Some "/run/secrets/tok"))
         ∧ env ≠ {["CACHIX_AUTH_TOKEN" := Secret (Some "/run/secrets/tok")]}.
Proof.
  destruct (environment_reads_nothing mycache w) as (env & He & Hs & Ha).
  exists env. repeat split; try assumption.
  intros ->. rewrite lookup_singleton_ne in Hs by done. discriminate.
Qed.

(** ** Interpolate on the wire *)

Lemma dump_by_alias_keys (i : Interpolate.t) :
  dict_get (Interpolate.model_dump true i) "_type"
    = Some (JStr (Interpolate.nix_type i))
  ∧ dict_get (Interpolate.model_dump true i) "value"
    = Some (JStr (Interpolate.value i)).
Proof.
  split; simpl.
  - apply lookup_insert_eq.
  - rewrite lookup_insert_ne by done. apply lookup_insert_eq.
Qed.

(** C6: a dump by alias carries the discriminator under its wire name
    "_type" (and not under "nix_type"), and validating that dump gives the
    value back; a dump by field name carries the discriminator under
    "nix_type" and has no "_type" key. *)
Theorem interpolate_by_alias_round_trip (i : Interpolate.t) :
  Interpolate.model_validate (Interpolate.model_dump true i) = Ok i
  ∧ dict_get (Interpolate.model_dump true i) "_type"
    = Some (JStr (Interpolate.nix_type i))
  ∧ dict_get (Interpolate.model_dump true i) "nix_type" = None
  ∧ dict_get (Interpolate.model_dump true i) "value"
    = Some (JStr (Interpolate.value i))
  ∧ dict_get (Interpolate.model_dump false i) "_type" = None
  ∧ dict_get (Interpolate.model_dump false i) "nix_type"
    = Some (JStr (Interpolate.nix_type i))
  ∧ dict_get (Interpolate.model_dump false i) "value"
    = Some (JStr (Interpolate.value i)).
Proof.
  destruct (dump_by_alias_keys i) as [Ht Hv].
  split; [|split; [exact Ht|split; [|split; [exact Hv|split; [|split]]]]].
  - simpl in Ht, Hv.
    unfold Interpolate.model_validate, Interpolate.model_dump,
      model_validator, Interpolate.validate_fields,
      required_by_alias_or_name, required.
    rewrite Ht, Hv. destruct i; reflexivity.
  - simpl. rewrite !lookup_insert_ne by done. apply lookup_empty.
  - simpl. rewrite !lookup_insert_ne by done. apply lookup_empty.
  - simpl. apply lookup_insert_eq.
  - simpl. rewrite lookup_insert_ne by done. apply lookup_insert_eq.
Qed.

(** C10: the discriminator is accepted under the alias "_type" and under
    the field name "nix_type" alike; both documents validate to the same
    Interpolate. *)
Theorem interpolate_populated_by_alias_or_name (t v : string) :
  Interpolate.model_validate
    (JDict (<["_type" := JStr t]> (<["value" := JStr v]> ∅)))
  = Ok {| Interpolate.nix_type := t; Interpolate.value := v |}
  ∧ Interpolate.model_validate
      (JDict (<["nix_type" := JStr t]> (<["value" := JStr v]> ∅)))
    = Ok {| Interpolate.nix_type := t; Interpolate.value := v |}.
Proof.
  unfold Interpolate.model_validate, model_validator,
    Interpolate.validate_fields, required_by_alias_or_name, required.
  split.
  - rewrite lookup_insert_eq.
    rewrite lookup_insert_ne by done. rewrite lookup_insert_eq.
    reflexivity.
  - rewrite !(lookup_insert_ne _ _ "_type") by done. rewrite lookup_empty.
    rewrite lookup_insert_eq.
    rewrite lookup_insert_ne by done. rewrite lookup_insert_eq.
    reflexivity.
Qed.

(** ** No read at construction *)

Lemma bind_validates {A B} (c : M A) (r : result A) (k : A → M B)
    (k' : A → result B) (w : world) :
  c w = (r, w) → (∀ a, k a w = (k' a, w)) →
  bind c k w = (rbind r k', w).
Proof.
  intros Hc Hk. unfold bind. rewrite Hc.
  destruct r as [a|e]; simpl; [apply Hk|reflexivity].
Qed.

Lemma Build_pure {A} (f : json → result A) :
  validates_only (Build.pure f) f.
Proof. intros v w. reflexivity. Qed.

Lemma Build_optional {A} (c : json → M A) (f : json → result A) :
  validates_only c f → validates_only (Build.optional c) (optional f).
Proof.
  intros Hc v w. unfold Build.optional, optional.
  destruct v; try reflexivity;
    (apply bind_validates; [apply Hc|intros a; reflexivity]).
Qed.

Lemma Build_mapM {X A} (c : X → M A) (f : X → result A) :
  validates_only c f → validates_only (Build.mapM c) (rmapM f).
Proof.
  intros Hc l. induction l as [|x l IH]; intros w; simpl; [reflexivity|].
  apply bind_validates; [apply Hc|intros y].
  apply bind_validates; [apply IH|intros ys; reflexivity].
Qed.

Lemma Build_list_validator {A} (c : json → M A) (f : json → result A) :
  validates_only c f →
  validates_only (Build.list_validator c) (list_validator f).
Proof.
  intros Hc v w. destruct v; try reflexivity. simpl.
  apply Build_mapM. exact Hc.
Qed.

Lemma Build_dict_validator {A} (c : json → M A) (f : json → result A) :
  validates_only c f →
  validates_only (Build.dict_validator c) (dict_validator f).
Proof.
  intros Hc v w. destruct v; try reflexivity. simpl.
  apply bind_validates; [|intros l; reflexivity].
  apply Build_mapM. intros [k x] w'. simpl.
  apply bind_validates; [apply Hc|intros y; reflexivity].
Qed.

Lemma Build_model_validator {A} (c : gmap string json → M A)
    (f : gmap string json → result A) :
  validates_only c f →
  validates_only (Build.model_validator c) (model_validator f).
Proof. intros Hc v w. destruct v; try reflexivity. apply Hc. Qed.

Lemma Build_required {A} (c : json → M A) (f : json → result A)
    (m : gmap string json) (k : string) (w : world) :
  validates_only c f → Build.required m k c w = (required m k f, w).
Proof.
  intros Hc. unfold Build.required, required.
  destruct (m !! k); [apply Hc|reflexivity].
Qed.

Lemma Build_with_default {A} (c : json → M A) (f : json → result A)
    (m : gmap string json) (k : string) (d : A) (w : world) :
  validates_only c f →
  Build.with_default m k c d w = (with_default m k f d, w).
Proof.
  intros Hc. unfold Build.with_default, with_default.
  destruct (m !! k); [apply Hc|reflexivity].
Qed.

Lemma Build_required_by_alias_or_name {A} (c : json → M A)
    (f : json → result A) (m : gmap string json) (a k : string)
    (w : world) :
  validates_only c f →
  Build.required_by_alias_or_name m a k c w
  = (required_by_alias_or_name m a k f, w).
Proof.
  intros Hc. unfold Build.required_by_alias_or_name,
    required_by_alias_or_name.
  destruct (m !! a); [apply Hc|apply Build_required; exact Hc].
Qed.

Lemma Build_counted {A} (ks : list string) (c : gmap string json → M A)
    (f : gmap string json → result A) :
  validates_only c f → validates_only (Build.counted ks c) (counted ks f).
Proof.
  intros Hc. apply Build_model_validator. intros m w.
  apply bind_validates; [apply Hc|intros a; reflexivity].
Qed.

Lemma Build_smart_union {A B} (pol : union_policy)
    (ca : json → M (A * nat)) (fa : json → result (A * nat))
    (cb : json → M (B * nat)) (fb : json → result (B * nat)) :
  validates_only ca fa → validates_only cb fb →
  validates_only (Build.smart_union pol ca cb) (smart_union pol fa fb).
Proof.
  intros Ha Hb v w. unfold Build.smart_union, smart_union.
  rewrite (Ha v w), (Hb v w). reflexivity.
Qed.

Lemma Build_str_or_model {B} (c : json → M B) (f : json → result B) :
  validates_only c f →
  validates_only (Build.str_or_model c) (str_or_model f).
Proof.
  intros Hc v w. unfold Build.str_or_model, str_or_model.
  destruct (str_validator v); [reflexivity|].
  apply bind_validates; [apply Hc|intros b; reflexivity].
Qed.

Create HintDb build discriminated.
#[local] Hint Resolve Build_pure Build_optional Build_list_validator
  Build_dict_validator Build_model_validator Build_counted
  Build_smart_union Build_str_or_model : build.

(** Walks the fields of a class, each step against its validator. *)
Ltac field_by_field :=
  repeat (apply bind_validates;
          [ first [ apply Build_required
                  | apply Build_with_default
                  | apply Build_required_by_alias_or_name ];
            eauto 8 with build
          | intros ? ]);
  reflexivity.

Lemma CachixConfig_construct :
  validates_only CachixConfig.construct CachixConfig.model_validate.
Proof.
  apply Build_model_validator. intros m w.
  unfold CachixConfig.construct_fields, CachixConfig.validate_fields.
  field_by_field.
Qed.

Lemma GiteaConfig_construct :
  validates_only GiteaConfig.construct GiteaConfig.model_validate.
Proof.
  apply Build_model_validator. intros m w.
  unfold GiteaConfig.construct_fields, GiteaConfig.validate_fields.
  field_by_field.
Qed.

Lemma GitHubLegacyConfig_construct_fields :
  validates_only GitHubLegacyConfig.construct_fields
    GitHubLegacyConfig.validate_fields.
Proof.
  intros m w.
  unfold GitHubLegacyConfig.construct_fields,
    GitHubLegacyConfig.validate_fields.
  field_by_field.
Qed.

Lemma GitHubAppConfig_construct_fields (rd : readers) :
  validates_only (GitHubAppConfig.construct_fields rd)
    (GitHubAppConfig.validate_fields rd).
Proof.
  intros m w.
  unfold GitHubAppConfig.construct_fields, GitHubAppConfig.validate_fields.
  field_by_field.
Qed.

Lemma GitHubConfig_construct (rd : readers) (pol : union_policy) :
  validates_only (GitHubConfig.construct rd pol)
    (GitHubConfig.model_validate rd pol).
Proof.
  pose proof GitHubLegacyConfig_construct_fields.
  pose proof (GitHubAppConfig_construct_fields rd).
  apply Build_model_validator. intros m w.
  unfold GitHubConfig.construct_fields, GitHubConfig.validate_fields,
    GitHubConfig.auth_type_validator.
  field_by_field.
Qed.

Lemma Interpolate_construct :
  validates_only Interpolate.construct Interpolate.model_validate.
Proof.
  apply Build_model_validator. intros m w.
  unfold Interpolate.construct_fields, Interpolate.validate_fields.
  field_by_field.
Qed.

Lemma PostBuildStep_construct :
  validates_only PostBuildStep.construct PostBuildStep.model_validate.
Proof.
  pose proof Interpolate_construct.
  apply Build_model_validator. intros m w.
  unfold PostBuildStep.construct_fields, PostBuildStep.validate_fields,
    PostBuildStep.str_or_Interpolate.
  field_by_field.
Qed.

Lemma BuildbotNixConfig_construct (rd : readers) (pol : union_policy) :
  validates_only (BuildbotNixConfig.construct rd pol)
    (BuildbotNixConfig.model_validate rd pol).
Proof.
  pose proof CachixConfig_construct. pose proof GiteaConfig_construct.
  pose proof (GitHubConfig_construct rd pol).
  pose proof PostBuildStep_construct.
  apply Build_model_validator. intros m w.
  unfold BuildbotNixConfig.construct_fields,
    BuildbotNixConfig.validate_fields.
  field_by_field.
Qed.

(** C8: building any of the six configuration objects from a document
    goes through the validators of its fields and of its nested blocks,
    none of which touches the world: the outcome is that of validation
    and the world is as before, the read log included; each lazy accessor,
    once called on a built object, does exactly one read, of its own file
    reference. *)
Theorem reads_only_in_accessors (rd : readers) (pol : union_policy)
    (v : json) (w : world) :
  (CachixConfig.construct v w = (CachixConfig.model_validate v, w)
   ∧ GiteaConfig.construct v w = (GiteaConfig.model_validate v, w)
   ∧ GitHubLegacyConfig.construct v w
     = (GitHubLegacyConfig.model_validate v, w)
   ∧ GitHubAppConfig.construct rd v w
     = (GitHubAppConfig.model_validate rd v, w)
   ∧ GitHubConfig.construct rd pol v w
     = (GitHubConfig.model_validate rd pol v, w)
   ∧ BuildbotNixConfig.construct rd pol v w
     = (BuildbotNixConfig.model_validate rd pol v, w))
  ∧ ((∀ c p, CachixConfig.signing_key_file c = Some p →
             (CachixConfig.signing_key c w).2 = after_read p w)
     ∧ (∀ c p, CachixConfig.auth_token_file c = Some p →
               (CachixConfig.auth_token c w).2 = after_read p w)
     ∧ (∀ c, (GiteaConfig.token c w).2
             = after_read (GiteaConfig.token_file c) w)
     ∧ (∀ c, (GiteaConfig.webhook_secret c w).2
             = after_read (GiteaConfig.webhook_secret_file c) w)
     ∧ (∀ c p, GiteaConfig.oauth_secret_file c = Some p →
               (GiteaConfig.oauth_secret c w).2 = after_read p w)
     ∧ (∀ c, (GitHubLegacyConfig.token c w).2
             = after_read (GitHubLegacyConfig.token_file c) w)
     ∧ (∀ c, (GitHubAppConfig.secret_key c w).2
             = after_read (GitHubAppConfig.secret_key_file c) w)
     ∧ (∀ c, (GitHubConfig.webhook_secret c w).2
             = after_read (GitHubConfig.webhook_secret_file c) w)
     ∧ (∀ c p, GitHubConfig.oauth_secret_file c = Some p →
               (GitHubConfig.oauth_secret c w).2 = after_read p w)
     ∧ (∀ c, (BuildbotNixConfig.nix_workers_secret c w).2
             = after_read (BuildbotNixConfig.nix_workers_secret_file c) w)).
Proof.
  split.
  { repeat apply conj.
    - apply CachixConfig_construct.
    - apply GiteaConfig_construct.
    - apply (Build_model_validator _ _ GitHubLegacyConfig_construct_fields).
    - apply (Build_model_validator _ _
               (GitHubAppConfig_construct_fields rd)).
    - apply GitHubConfig_construct.
    - apply BuildbotNixConfig_construct. }
  repeat split; intros c; try (intros p Hp).
  - unfold CachixConfig.signing_key. rewrite Hp. apply read_secret_file_world.
  - unfold CachixConfig.auth_token. rewrite Hp. apply read_secret_file_world.
  - apply read_secret_file_world.
  - apply read_secret_file_world.
  - unfold GiteaConfig.oauth_secret. rewrite Hp. apply read_secret_file_world.
  - apply read_secret_file_world.
  - apply read_secret_file_world.
  - apply read_secret_file_world.
  - unfold GitHubConfig.oauth_secret. rewrite Hp. apply read_secret_file_world.
  - apply read_secret_file_world.
Qed.

Lemma reads_only_in_accessors_witness :
  CachixConfig.construct cachix_doc one_secret_world
    = (Ok mycache, one_secret_world)
  ∧ (CachixConfig.signing_key cachix_without_token one_secret_world).2
    = after_read "/run/secrets/key" one_secret_world
  ∧ (CachixConfig.auth_token mycache one_secret_world).2
    = after_read "/run/secrets/tok" one_secret_world
  ∧ (GiteaConfig.oauth_secret gitea_with_oauth one_secret_world).2
    = after_read "gitea-oauth-secret" one_secret_world
  ∧ (GitHubConfig.oauth_secret github_with_oauth one_secret_world).2
    = after_read "github-oauth-secret" one_secret_world.
Proof.
  destruct (reads_only_in_accessors no_coercion FirstMatch cachix_doc
              one_secret_world)
    as [(Hc & _) (Hs & Ha & _ & _ & Hg & _ & _ & _ & Hh & _)].
  split; [rewrite Hc; vm_compute; reflexivity|].
  split; [apply Hs; reflexivity|].
  split; [apply Ha; reflexivity|].
  split; [apply Hg; reflexivity|apply Hh; reflexivity].
Defined.

(** ** The shape of [auth_type] *)

Lemma legacy_fields_set (m : gmap string json) (c : GitHubLegacyConfig.t) :
  GitHubLegacyConfig.validate_fields m = Ok c →
  fields_set_count m GitHubLegacyConfig.fields = 1%nat.
Proof.
  unfold GitHubLegacyConfig.validate_fields, required, fields_set_count,
    GitHubLegacyConfig.fields.
  intros H. rewrite filter_cons, filter_nil.
  destruct (m !! "token_file") eqn:E; [|discriminate].
  rewrite decide_True by eauto. reflexivity.
Qed.

Lemma app_fields_set (rd : readers) (m : gmap string json)
    (c : GitHubAppConfig.t) :
  GitHubAppConfig.validate_fields rd m = Ok c →
  (2 ≤ fields_set_count m GitHubAppConfig.fields)%nat.
Proof.
  unfold GitHubAppConfig.validate_fields, required, fields_set_count,
    GitHubAppConfig.fields.
  intros H.
  destruct (m !! "id") eqn:E1; [|discriminate].
  destruct (int_validator rd j); [|discriminate]. simpl in H.
  destruct (m !! "secret_key_file") eqn:E2; [|discriminate].
  rewrite 2!filter_cons, E1, E2.
  rewrite !decide_True by eauto. simpl. lia.
Qed.

Lemma path_like_validates (v : json) :
  path_like v = is_ok (path_validator v).
Proof. destruct v; reflexivity. Qed.

Lemma int_like_validates (rd : readers) (v : json) :
  int_like rd v = is_ok (int_validator rd v).
Proof.
  destruct v as [| | |x|s| |]; simpl; try reflexivity.
  - destruct (float_as_int rd x); reflexivity.
  - destruct (str_as_int rd s); reflexivity.
Qed.

Lemma holds_required {A} (m : gmap string json) (k : string)
    (p : json → bool) (f : json → result A) :
  (∀ v, p v = is_ok (f v)) → holds m k p = is_ok (required m k f).
Proof.
  intros Hp. unfold holds, required. destruct (m !! k); [apply Hp|done].
Qed.

Lemma holds_or_omits_with_default {A} (m : gmap string json) (k : string)
    (p : json → bool) (f : json → result A) (d : A) :
  (∀ v, p v = is_ok (f v)) →
  holds_or_omits m k p = is_ok (with_default m k f d).
Proof.
  intros Hp. unfold holds_or_omits, with_default.
  destruct (m !! k); [apply Hp|done].
Qed.

(** The legacy shape is what the legacy model accepts. *)
Lemma legacy_shape_accepted (v : json) :
  legacy_shape v = is_ok (GitHubLegacyConfig.model_validate v).
Proof.
  destruct v as [| | | | | |m]; try reflexivity.
  unfold legacy_shape, GitHubLegacyConfig.model_validate, model_validator,
    GitHubLegacyConfig.validate_fields.
  rewrite (holds_required m "token_file" _ path_validator
             path_like_validates).
  destruct (required m "token_file" path_validator); reflexivity.
Qed.

(** The app shape is what the app model accepts. *)
Lemma app_shape_accepted (rd : readers) (v : json) :
  app_shape rd v = is_ok (GitHubAppConfig.model_validate rd v).
Proof.
  destruct v as [| | | | | |m]; try reflexivity.
  unfold app_shape, GitHubAppConfig.model_validate, model_validator,
    GitHubAppConfig.validate_fields.
  rewrite (holds_required m "id" _ (int_validator rd)
             (int_like_validates rd)).
  rewrite (holds_required m "secret_key_file" _ path_validator
             path_like_validates).
  rewrite (holds_or_omits_with_default m "installation_token_map_file" _
             path_validator "github-app-installation-token-map.json"
             path_like_validates).
  rewrite (holds_or_omits_with_default m "project_id_map_file" _
             path_validator "github-app-project-id-map-name.json"
             path_like_validates).
  rewrite (holds_or_omits_with_default m "jwt_token_map" _
             path_validator "github-app-jwt-token" path_like_validates).
  destruct (required m "id" (int_validator rd)); [|reflexivity].
  destruct (required m "secret_key_file" path_validator); [|reflexivity].
  destruct (with_default m "installation_token_map_file" _ _);
    [|reflexivity].
  destruct (with_default m "project_id_map_file" _ _); [|reflexivity].
  destruct (with_default m "jwt_token_map" _ _); reflexivity.
Qed.

Lemma legacy_validated (m : gmap string json) (c : GitHubLegacyConfig.t) :
  GitHubLegacyConfig.validate_fields m = Ok c →
  ∃ p, m !! "token_file" = Some (JStr p)
       ∧ c = {| GitHubLegacyConfig.token_file := Path_of p |}.
Proof.
  unfold GitHubLegacyConfig.validate_fields, required.
  destruct (m !! "token_file") as [j|]; [|discriminate].
  destruct j; simpl; try discriminate. intros [= <-]. eauto.
Qed.

Lemma app_validated (rd : readers) (m : gmap string json)
    (c : GitHubAppConfig.t) :
  GitHubAppConfig.validate_fields rd m = Ok c →
  ∃ j p, m !! "id" = Some j
         ∧ int_validator rd j = Ok (GitHubAppConfig.id c)
         ∧ m !! "secret_key_file" = Some (JStr p)
         ∧ GitHubAppConfig.secret_key_file c = Path_of p.
Proof.
  intros H. unfold GitHubAppConfig.validate_fields in H.
  apply rbind_ok_inv in H as (i & Hi & H).
  apply rbind_ok_inv in H as (sk & Hsk & H).
  apply rbind_ok_inv in H as (it & _ & H).
  apply rbind_ok_inv in H as (pi & _ & H).
  apply rbind_ok_inv in H as (jt & _ & H). injection H as <-.
  unfold required in Hi, Hsk.
  destruct (m !! "id") as [j|]; [|discriminate].
  destruct (m !! "secret_key_file") as [k|]; [|discriminate].
  destruct k; simpl in Hsk; try discriminate. injection Hsk as <-.
  eauto 6.
Qed.

(** C4: the shapes are read off the document: the legacy shape is an
    object with a token-file path, the app shape an object with an
    application id and a secret-key-file path (and a path under each
    map-file key it has).  A document with the legacy shape alone resolves
    to the legacy member, with the path of the document; one with the app
    shape alone to the app member, with the id and the path of the
    document; one with neither shape is rejected; one with both shapes
    resolves to the member the union policy fixes, whatever the
    document. *)
Theorem auth_type_resolved_by_shape (rd : readers) (pol : union_policy)
    (v : json) :
  (legacy_shape v = true → app_shape rd v = false →
     ∃ p, dict_get v "token_file" = Some (JStr p)
          ∧ GitHubConfig.auth_type_validator rd pol v
            = Ok (inl {| GitHubLegacyConfig.token_file := Path_of p |}))
  ∧ (legacy_shape v = false → app_shape rd v = true →
       ∃ c j p, GitHubConfig.auth_type_validator rd pol v = Ok (inr c)
                ∧ dict_get v "id" = Some j
                ∧ int_validator rd j = Ok (GitHubAppConfig.id c)
                ∧ dict_get v "secret_key_file" = Some (JStr p)
                ∧ GitHubAppConfig.secret_key_file c = Path_of p)
  ∧ (legacy_shape v = false → app_shape rd v = false →
       GitHubConfig.auth_type_validator rd pol v = Err ValidationError)
  ∧ (legacy_shape v = true → app_shape rd v = true →
       ∃ r, GitHubConfig.auth_type_validator rd pol v = Ok r
            ∧ variant_of r = tie_break pol).
Proof.
  rewrite legacy_shape_accepted, app_shape_accepted.
  unfold GitHubConfig.auth_type_validator, smart_union, counted,
    GitHubLegacyConfig.model_validate, GitHubAppConfig.model_validate,
    model_validator.
  destruct v as [| | | | | |m]; simpl;
    try (repeat apply conj; intros; first [discriminate|reflexivity]).
  destruct (GitHubLegacyConfig.validate_fields m) as [l|el] eqn:El;
    destruct (GitHubAppConfig.validate_fields rd m) as [a|ea] eqn:Ea; simpl;
    repeat apply conj; intros; try discriminate; try reflexivity.
  - destruct pol; simpl; [eauto|].
    rewrite (legacy_fields_set m l El).
    pose proof (app_fields_set rd m a Ea) as Hc.
    destruct (1 <? fields_set_count m GitHubAppConfig.fields)%nat eqn:Hlt.
    + eauto.
    + apply Nat.ltb_ge in Hlt. lia.
  - destruct (legacy_validated m l El) as (p & Hp & ->). eauto.
  - destruct (app_validated rd m a Ea) as (j & p & ?). exists a, j, p. auto.
Qed.

Lemma auth_type_resolved_by_shape_witness :
  GitHubConfig.auth_type_validator no_coercion MostFieldsSet legacy_doc
    = Ok (inl {| GitHubLegacyConfig.token_file := "github-token" |})
  ∧ (∃ c, GitHubConfig.auth_type_validator no_coercion MostFieldsSet app_doc
          = Ok (inr c)
          ∧ GitHubAppConfig.id c = 1234
          ∧ GitHubAppConfig.secret_key_file c = "github-app-secret-key")
  ∧ GitHubConfig.auth_type_validator no_coercion MostFieldsSet
      neither_shape_doc
    = Err ValidationError
  ∧ (∃ r, GitHubConfig.auth_type_validator no_coercion MostFieldsSet
            both_shapes_doc = Ok r
          ∧ variant_of r = App).
Proof.
  split; [|split; [|split]].
  - destruct (auth_type_resolved_by_shape no_coercion MostFieldsSet
                legacy_doc) as (H & _).
    destruct H as (p & Hp & Hr); [vm_compute; reflexivity ..|].
    rewrite Hr. vm_compute in Hp. injection Hp as <-.
    vm_compute. reflexivity.
  - destruct (auth_type_resolved_by_shape no_coercion MostFieldsSet app_doc)
      as (_ & H & _).
    destruct H as (c & j & p & Hr & Hj & Hi & Hp & Hs);
      [vm_compute; reflexivity ..|].
    exists c. split; [exact Hr|].
    vm_compute in Hj, Hp. injection Hj as <-. injection Hp as <-.
    split; [|exact Hs]. simpl in Hi. congruence.
  - destruct (auth_type_resolved_by_shape no_coercion MostFieldsSet
                neither_shape_doc) as (_ & _ & H & _).
    apply H; vm_compute; reflexivity.
  - destruct (auth_type_resolved_by_shape no_coercion MostFieldsSet
                both_shapes_doc) as (_ & _ & _ & H).
    apply H; vm_compute; reflexivity.
Defined.

(** ** The root configuration *)

(** C9: the root model does not tie [auth_backend] to the forge blocks: a
    document with auth_backend "github" and github null validates, to an
    object with exactly that combination, and likewise for gitea. *)
Theorem auth_backend_not_tied_to_blocks (rd : readers) (pol : union_policy) :
  (∃ m c, m !! "auth_backend" = Some (JStr "github")
          ∧ m !! "github" = Some JNull
          ∧ BuildbotNixConfig.model_validate rd pol (JDict m) = Ok c
          ∧ BuildbotNixConfig.auth_backend c = github
          ∧ BuildbotNixConfig.github c = None)
  ∧ (∃ m c, m !! "auth_backend" = Some (JStr "gitea")
            ∧ m !! "gitea" = Some JNull
            ∧ BuildbotNixConfig.model_validate rd pol (JDict m) = Ok c
            ∧ BuildbotNixConfig.auth_backend c = gitea
            ∧ BuildbotNixConfig.gitea c = None).
Proof.
  split.
  - exists (root_fields (JStr "github")). eexists.
    split; [vm_compute; reflexivity|].
    split; [vm_compute; reflexivity|].
    split; [destruct pol; vm_compute; reflexivity|].
    split; reflexivity.
  - exists (root_fields (JStr "gitea")). eexists.
    split; [vm_compute; reflexivity|].
    split; [vm_compute; reflexivity|].
    split; [destruct pol; vm_compute; reflexivity|].
    split; reflexivity.
Qed.

Lemma required_insert_ne {A} (m : gmap string json) (k k' : string)
    (x : json) (f : json → result A) :
  k ≠ k' → required (<[k := x]> m) k' f = required m k' f.
Proof. intros H. unfold required. rewrite lookup_insert_ne by done. done. Qed.

Lemma required_insert_eq {A} (m : gmap string json) (k : string)
    (x : json) (f : json → result A) :
  required (<[k := x]> m) k f = f x.
Proof. unfold required. rewrite lookup_insert_eq. done. Qed.

Lemma with_default_insert_ne {A} (m : gmap string json) (k k' : string)
    (x : json) (f : json → result A) (d : A) :
  k ≠ k' → with_default (<[k := x]> m) k' f d = with_default m k' f d.
Proof.
  intros H. unfold with_default. rewrite lookup_insert_ne by done. done.
Qed.

Lemma required_delete_ne {A} (m : gmap string json) (k k' : string)
    (f : json → result A) :
  k ≠ k' → required (delete k m) k' f = required m k' f.
Proof. intros H. unfold required. rewrite lookup_delete_ne by done. done. Qed.

Lemma with_default_delete_ne {A} (m : gmap string json) (k k' : string)
    (f : json → result A) (d : A) :
  k ≠ k' → with_default (delete k m) k' f d = with_default m k' f d.
Proof.
  intros H. unfold with_default. rewrite lookup_delete_ne by done. done.
Qed.

Lemma with_default_delete_eq {A} (m : gmap string json) (k : string)
    (f : json → result A) (d : A) :
  with_default (delete k m) k f d = Ok d.
Proof. unfold with_default. rewrite lookup_delete_eq. done. Qed.

Lemma with_default_absent {A} (m : gmap string json) (k : string)
    (f : json → result A) (d : A) :
  m !! k = None → with_default m k f d = Ok d.
Proof. intros H. unfold with_default. rewrite H. done. Qed.

(** Splits a successful chain of field validations into its steps. *)
Ltac split_fields H :=
  repeat (let a := fresh "f" in let Ha := fresh "Hf" in
          apply rbind_ok_inv in H as (a & Ha & H)).

(** Pushes field lookups through an insertion or a deletion of one key. *)
Ltac fields_of_changed_document :=
  repeat match goal with
         | |- context [required (<[?k := ?x]> ?m) ?k' ?f] =>
             first [ rewrite (required_insert_ne m k k' x f) by done
                   | rewrite (required_insert_eq m k x f) ]
         | |- context [with_default (<[?k := ?x]> ?m) ?k' ?f ?d] =>
             rewrite (with_default_insert_ne m k k' x f d) by done
         | |- context [required (delete ?k ?m) ?k' ?f] =>
             rewrite (required_delete_ne m k k' f) by done
         | |- context [with_default (delete ?k ?m) ?k' ?f ?d] =>
             first [ rewrite (with_default_delete_ne m k k' f d) by done
                   | rewrite (with_default_delete_eq m k f d) ]
         end.

(** Replays the steps recorded by [split_fields] in the goal. *)
Ltac replay_fields :=
  repeat match goal with
         | Ha : ?r = Ok _ |- context [rbind ?r _] =>
             rewrite Ha; cbn [rbind]
         end.

Lemma AuthBackendConfig_validator_value (b : AuthBackendConfig) :
  AuthBackendConfig_validator (JStr (AuthBackendConfig_value b)) = Ok b.
Proof. destruct b; reflexivity. Qed.

Lemma AuthBackendConfig_validator_closed (v : json) :
  v ∉ [JStr "github"; JStr "gitea"; JStr "none"] →
  AuthBackendConfig_validator v = Err ValidationError.
Proof.
  intros Hv. destruct v as [| | | |s| |]; try reflexivity. simpl.
  destruct (String.eqb_spec s "github") as [->|_];
    [exfalso; apply Hv; set_solver|].
  destruct (String.eqb_spec s "gitea") as [->|_];
    [exfalso; apply Hv; set_solver|].
  destruct (String.eqb_spec s "none") as [->|_];
    [exfalso; apply Hv; set_solver|].
  reflexivity.
Qed.

(** C5: a root document whose auth_backend is none of "github", "gitea",
    "none" is rejected with a validation error; in a document that
    validates, auth_backend may be set to any of the three and the
    document still validates, to that member. *)
Theorem auth_backend_closed_enum (rd : readers) (pol : union_policy)
    (m : gmap string json) :
  (∀ v, m !! "auth_backend" = Some v →
        v ∉ [JStr "github"; JStr "gitea"; JStr "none"] →
        BuildbotNixConfig.model_validate rd pol (JDict m)
        = Err ValidationError)
  ∧ (∀ c b, BuildbotNixConfig.model_validate rd pol (JDict m) = Ok c →
            ∃ c', BuildbotNixConfig.model_validate rd pol
                    (JDict (<["auth_backend" :=
                               JStr (AuthBackendConfig_value b)]> m))
                  = Ok c'
                  ∧ BuildbotNixConfig.auth_backend c' = b).
Proof.
  unfold BuildbotNixConfig.model_validate, model_validator,
    BuildbotNixConfig.validate_fields.
  split.
  - intros v Hm Hv.
    unfold required at 1.
    destruct (m !! "db_url") as [u|]; [|reflexivity].
    destruct u; try reflexivity. cbn [str_validator rbind].
    unfold required at 1. rewrite Hm.
    rewrite (AuthBackendConfig_validator_closed v Hv). reflexivity.
  - intros c b H.
    split_fields H.
    fields_of_changed_document.
    rewrite AuthBackendConfig_validator_value.
    replay_fields.
    eexists. split; reflexivity.
Qed.

Lemma auth_backend_closed_enum_witness :
  BuildbotNixConfig.model_validate no_coercion FirstMatch
    (JDict (root_fields (JStr "bitbucket")))
  = Err ValidationError
  ∧ ∃ c', BuildbotNixConfig.model_validate no_coercion FirstMatch
            (JDict (<["auth_backend" := JStr "gitea"]>
                      (root_fields (JStr "none"))))
          = Ok c'
          ∧ BuildbotNixConfig.auth_backend c' = gitea.
Proof.
  split.
  - apply (proj1 (auth_backend_closed_enum no_coercion FirstMatch
                    (root_fields (JStr "bitbucket"))) (JStr "bitbucket")).
    + vm_compute; reflexivity.
    + intros H. repeat (apply elem_of_cons in H as [H|H]; [discriminate|]).
      inversion H.
  - eapply (proj2 (auth_backend_closed_enum no_coercion FirstMatch
                     (root_fields (JStr "none"))) _ gitea).
    vm_compute; reflexivity.
Defined.

(** Settles one [defaults_to] statement: [unf] unfolds the model. *)
Ltac prove_default unf :=
  let m := fresh "m" in let c := fresh "c" in let H := fresh "H" in
  intros m c H; unf; unfold model_validator in H |- *;
  split_fields H; injection H as <-; cbn;
  split;
  [ let Hk := fresh "Hk" in
    intros Hk;
    match goal with
    | Hd : with_default m _ _ ?d = Ok ?x |- ?x = ?d =>
        rewrite (with_default_absent _ _ _ _ Hk) in Hd; congruence
    end
  | eexists; fields_of_changed_document; replay_fields;
    split; reflexivity ].



(** * Further properties of the module *)

(** ** Errors of validation *)

Lemma rbind_err_inv {A B} (r : result A) (f : A → result B) (e : error) :
  rbind r f = Err e → r = Err e ∨ ∃ a, r = Ok a ∧ f a = Err e.
Proof. destruct r; simpl; intros H; [right; eauto|left; congruence]. Qed.

Lemma str_validator_only : validation_only str_validator.
Proof. intros [] e H; simpl in H; congruence. Qed.

Lemma path_validator_only : validation_only path_validator.
Proof. intros [] e H; simpl in H; congruence. Qed.

Lemma int_validator_only (rd : readers) :
  validation_only (int_validator rd).
Proof.
  intros [| | |x|s| |] e H; simpl in H; try congruence.
  - destruct (float_as_int rd x); congruence.
  - destruct (str_as_int rd s); congruence.
Qed.

Lemma bool_validator_only (rd : readers) :
  validation_only (bool_validator rd).
Proof.
  intros [| |z|x|s| |] e H; simpl in H; try congruence.
  - destruct z as [|[]|]; congruence.
  - destruct (float_as_int rd x) as [[|[]|]|]; congruence.
  - destruct (str_as_bool s); congruence.
Qed.

Lemma AuthBackendConfig_validator_only :
  validation_only AuthBackendConfig_validator.
Proof.
  intros [| | | |s| |] e H; simpl in H; try congruence.
  repeat (destruct (String.eqb s _); [discriminate|]). congruence.
Qed.

Lemma optional_only {A} (f : json → result A) :
  validation_only f → validation_only (optional f).
Proof.
  intros Hf v e H. unfold optional in H.
  destruct v; try discriminate;
    apply rbind_err_inv in H as [H|(a & _ & H)];
    solve [discriminate | eapply Hf; eassumption].
Qed.

Lemma rmapM_only {X A} (f : X → result A) (l : list X) (e : error) :
  validation_only f → rmapM f l = Err e → e = ValidationError.
Proof.
  intros Hf. induction l as [|x l IH]; simpl; [discriminate|].
  intros H. apply rbind_err_inv in H as [H|(y & _ & H)]; [eauto|].
  apply rbind_err_inv in H as [H|(ys & _ & H)]; [eauto|discriminate].
Qed.

Lemma list_validator_only {A} (f : json → result A) :
  validation_only f → validation_only (list_validator f).
Proof.
  intros Hf v e H. destruct v; simpl in H; try congruence.
  eapply rmapM_only; eassumption.
Qed.

Lemma dict_validator_only {A} (f : json → result A) :
  validation_only f → validation_only (dict_validator f).
Proof.
  intros Hf v e H. destruct v; simpl in H; try congruence.
  apply rbind_err_inv in H as [H|(l & _ & H)]; [|discriminate].
  eapply rmapM_only; [|eassumption].
  intros [k x] e' H'. simpl in H'.
  apply rbind_err_inv in H' as [H'|(y & _ & H')]; [eauto|discriminate].
Qed.

Lemma model_validator_only {A} (f : gmap string json → result A) :
  validation_only f → validation_only (model_validator f).
Proof. intros Hf v e H. destruct v; simpl in H; try congruence. eauto. Qed.

Lemma required_only {A} (m : gmap string json) (k : string)
    (f : json → result A) (e : error) :
  validation_only f → required m k f = Err e → e = ValidationError.
Proof.
  intros Hf H. unfold required in H. destruct (m !! k); [eauto|congruence].
Qed.

Lemma with_default_only {A} (m : gmap string json) (k : string)
    (f : json → result A) (d : A) (e : error) :
  validation_only f → with_default m k f d = Err e → e = ValidationError.
Proof.
  intros Hf H. unfold with_default in H.
  destruct (m !! k); [eauto|congruence].
Qed.

Create HintDb validation discriminated.
#[local] Hint Resolve str_validator_only path_validator_only
  int_validator_only bool_validator_only AuthBackendConfig_validator_only
  optional_only list_validator_only dict_validator_only
  model_validator_only : validation.

(** Walks a failed chain of field validations to the field that failed. *)
Ltac failed_field H :=
  repeat (apply rbind_err_inv in H as [H|(? & _ & H)];
          [ first [ eapply required_only; [|exact H]
                  | eapply with_default_only; [|exact H] ];
            eauto 6 with validation
          | ]);
  try discriminate.

Lemma CachixConfig_only : validation_only CachixConfig.model_validate.
Proof.
  apply model_validator_only. intros m e H.
  unfold CachixConfig.validate_fields in H. failed_field H.
Qed.

Lemma GiteaConfig_only : validation_only GiteaConfig.model_validate.
Proof.
  apply model_validator_only. intros m e H.
  unfold GiteaConfig.validate_fields in H. failed_field H.
Qed.

Lemma GitHubLegacyConfig_only :
  validation_only GitHubLegacyConfig.validate_fields.
Proof.
  intros m e H.
  unfold GitHubLegacyConfig.validate_fields in H. failed_field H.
Qed.

Lemma GitHubAppConfig_only (rd : readers) :
  validation_only (GitHubAppConfig.validate_fields rd).
Proof.
  intros m e H.
  unfold GitHubAppConfig.validate_fields in H. failed_field H.
Qed.

Lemma auth_type_validator_only (rd : readers) (pol : union_policy) :
  validation_only (GitHubConfig.auth_type_validator rd pol).
Proof.
  intros v e H. unfold GitHubConfig.auth_type_validator, smart_union in H.
  destruct (counted _ GitHubLegacyConfig.validate_fields v) as [[l cl]|];
    destruct (counted _ (GitHubAppConfig.validate_fields rd) v) as [[a ca]|];
    try congruence.
  destruct pol; [congruence|]. destruct (cl <? ca)%nat; congruence.
Qed.

Lemma GitHubConfig_only (rd : readers) (pol : union_policy) :
  validation_only (GitHubConfig.model_validate rd pol).
Proof.
  pose proof (auth_type_validator_only rd pol).
  apply model_validator_only. intros m e H'.
  unfold GitHubConfig.validate_fields in H'. failed_field H'.
Qed.

Lemma Interpolate_only : validation_only Interpolate.model_validate.
Proof.
  apply model_validator_only. intros m e H.
  unfold Interpolate.validate_fields in H.
  apply rbind_err_inv in H as [H|(? & _ & H)].
  - unfold required_by_alias_or_name in H.
    destruct (m !! "_type").
    + eapply str_validator_only. exact H.
    + eapply required_only; [|exact H]. apply str_validator_only.
  - failed_field H.
Qed.

Lemma str_or_Interpolate_only :
  validation_only PostBuildStep.str_or_Interpolate.
Proof.
  intros v e H. unfold PostBuildStep.str_or_Interpolate, str_or_model in H.
  destruct (str_validator v); [discriminate|].
  apply rbind_err_inv in H as [H|(? & _ & H)]; [|discriminate].
  eapply Interpolate_only; eassumption.
Qed.

Lemma PostBuildStep_only : validation_only PostBuildStep.model_validate.
Proof.
  pose proof str_or_Interpolate_only.
  apply model_validator_only. intros m e H'.
  unfold PostBuildStep.validate_fields in H'. failed_field H'.
Qed.

Lemma BuildbotNixConfig_only (rd : readers) (pol : union_policy) :
  validation_only (BuildbotNixConfig.model_validate rd pol).
Proof.
  pose proof CachixConfig_only. pose proof GiteaConfig_only.
  pose proof (GitHubConfig_only rd pol). pose proof PostBuildStep_only.
  apply model_validator_only. intros m e H'.
  unfold BuildbotNixConfig.validate_fields in H'. failed_field H'.
Qed.

(** ** Excluded fields, the enumeration and the accessors *)

(** X1: [exclude_fields] marks exactly the listed names: a listed name is
    bound to {"exclude": True}, any other name is not bound. *)
Theorem exclude_fields_lookup (fields : list string) (k : string) :
  exclude_fields fields !! k
  = if decide (k ∈ fields) then Some {["exclude" := true]} else None.
Proof.
  unfold exclude_fields. induction fields as [|x l IH].
  - destruct (decide (k ∈ [])) as [H|_]; [set_solver|apply lookup_empty].
  - rewrite fmap_cons, list_to_map_cons. cbn [fst snd].
    rewrite lookup_insert, IH.
    destruct (decide (x = k)) as [->|Hx].
    + rewrite decide_True by (apply elem_of_cons; by left). reflexivity.
    + destruct (decide (k ∈ l)) as [Hl|Hl].
      * rewrite decide_True by (apply elem_of_cons; by right). reflexivity.
      * rewrite decide_False; [reflexivity|].
        intros [Hk|Hk]%elem_of_cons; [congruence|contradiction].
Qed.

(** X2: the enumeration is validated by exact value: a document value
    validates to a member exactly when it is the string of that member
    (so "GitHub", 0 or null are rejected). *)
Theorem AuthBackendConfig_validated_iff (v : json) (b : AuthBackendConfig) :
  AuthBackendConfig_validator v = Ok b ↔ v = JStr (AuthBackendConfig_value b).
Proof.
  split.
  - destruct v as [| | | |s| |]; simpl; try discriminate.
    destruct (String.eqb_spec s "github") as [->|_];
      [intros [= <-]; reflexivity|].
    destruct (String.eqb_spec s "gitea") as [->|_];
      [intros [= <-]; reflexivity|].
    destruct (String.eqb_spec s "none") as [->|_];
      [intros [= <-]; reflexivity|discriminate].
  - intros ->. apply AuthBackendConfig_validator_value.
Qed.

Lemma read_secret_file_not_internal (p : Path) (w : world) :
  (read_secret_file p w).1 ≠ Err InternalError.
Proof. rewrite read_secret_file_result. destruct (files w p); discriminate. Qed.

(** X3: an accessor on an optional reference raises [InternalError]
    exactly when the reference is unset; a failed read of a set reference
    is never reported as [InternalError]. *)
Theorem InternalError_iff_unset (w : world) :
  (∀ c, (CachixConfig.signing_key c w).1 = Err InternalError
        ↔ CachixConfig.signing_key_file c = None)
  ∧ (∀ c, (CachixConfig.auth_token c w).1 = Err InternalError
          ↔ CachixConfig.auth_token_file c = None)
  ∧ (∀ c, (GiteaConfig.oauth_secret c w).1 = Err InternalError
          ↔ GiteaConfig.oauth_secret_file c = None)
  ∧ (∀ c, (GitHubConfig.oauth_secret c w).1 = Err InternalError
          ↔ GitHubConfig.oauth_secret_file c = None).
Proof.
  repeat apply conj; intros c.
  - unfold CachixConfig.signing_key.
    destruct (CachixConfig.signing_key_file c) as [p|]; [|done].
    split; [intros H; destruct (read_secret_file_not_internal p w H)|done].
  - unfold CachixConfig.auth_token.
    destruct (CachixConfig.auth_token_file c) as [p|]; [|done].
    split; [intros H; destruct (read_secret_file_not_internal p w H)|done].
  - unfold GiteaConfig.oauth_secret.
    destruct (GiteaConfig.oauth_secret_file c) as [p|]; [|done].
    split; [intros H; destruct (read_secret_file_not_internal p w H)|done].
  - unfold GitHubConfig.oauth_secret.
    destruct (GitHubConfig.oauth_secret_file c) as [p|]; [|done].
    split; [intros H; destruct (read_secret_file_not_internal p w H)|done].
Qed.

(** X4: an accessor whose file can be read returns the content of that
    file, and one whose file cannot be read fails with the I/O error; the
    accessors on mandatory references and on optional ones agree on this. *)
Theorem accessors_return_file_content (w : world) (p : Path) :
  (∀ c, CachixConfig.signing_key_file c = Some p →
        (CachixConfig.signing_key c w).1
        = from_option Ok (Err IOError) (files w p))
  ∧ (∀ c, CachixConfig.auth_token_file c = Some p →
          (CachixConfig.auth_token c w).1
          = from_option Ok (Err IOError) (files w p))
  ∧ (∀ c, GiteaConfig.token_file c = p →
          (GiteaConfig.token c w).1
          = from_option Ok (Err IOError) (files w p))
  ∧ (∀ c, GiteaConfig.webhook_secret_file c = p →
          (GiteaConfig.webhook_secret c w).1
          = from_option Ok (Err IOError) (files w p))
  ∧ (∀ c, GiteaConfig.oauth_secret_file c = Some p →
          (GiteaConfig.oauth_secret c w).1
          = from_option Ok (Err IOError) (files w p))
  ∧ (∀ c, GitHubLegacyConfig.token_file c = p →
          (GitHubLegacyConfig.token c w).1
          = from_option Ok (Err IOError) (files w p))
  ∧ (∀ c, GitHubAppConfig.secret_key_file c = p →
          (GitHubAppConfig.secret_key c w).1
          = from_option Ok (Err IOError) (files w p))
  ∧ (∀ c, GitHubConfig.webhook_secret_file c = p →
          (GitHubConfig.webhook_secret c w).1
          = from_option Ok (Err IOError) (files w p))
  ∧ (∀ c, GitHubConfig.oauth_secret_file c = Some p →
          (GitHubConfig.oauth_secret c w).1
          = from_option Ok (Err IOError) (files w p))
  ∧ (∀ c, BuildbotNixConfig.nix_workers_secret_file c = p →
          (BuildbotNixConfig.nix_workers_secret c w).1
          = from_option Ok (Err IOError) (files w p)).
Proof.
  assert (Hr : (read_secret_file p w).1
               = from_option Ok (Err IOError) (files w p)).
  { rewrite read_secret_file_result. destruct (files w p); reflexivity. }
  repeat apply conj; intros c Hc.
  - unfold CachixConfig.signing_key. rewrite Hc. exact Hr.
  - unfold CachixConfig.auth_token. rewrite Hc. exact Hr.
  - unfold GiteaConfig.token. rewrite Hc. exact Hr.
  - unfold GiteaConfig.webhook_secret. rewrite Hc. exact Hr.
  - unfold GiteaConfig.oauth_secret. rewrite Hc. exact Hr.
  - unfold GitHubLegacyConfig.token. rewrite Hc. exact Hr.
  - unfold GitHubAppConfig.secret_key. rewrite Hc. exact Hr.
  - unfold GitHubConfig.webhook_secret. rewrite Hc. exact Hr.
  - unfold GitHubConfig.oauth_secret. rewrite Hc. exact Hr.
  - unfold BuildbotNixConfig.nix_workers_secret. rewrite Hc. exact Hr.
Qed.

Lemma InternalError_iff_unset_witness :
  (CachixConfig.signing_key mycache one_secret_world).1 = Err InternalError
  ∧ (CachixConfig.auth_token mycache one_secret_world).1 ≠ Err InternalError
  ∧ (GiteaConfig.oauth_secret gitea_without_oauth one_secret_world).1
    = Err InternalError
  ∧ (GitHubConfig.oauth_secret github_with_oauth one_secret_world).1
    ≠ Err InternalError.
Proof.
  destruct (InternalError_iff_unset one_secret_world)
    as (H1 & H2 & H3 & H4).
  split; [apply H1; reflexivity|].
  split; [intros H; apply H2 in H; discriminate|].
  split; [apply H3; reflexivity|].
  intros H; apply H4 in H; discriminate.
Defined.

Lemma accessors_return_file_content_witness :
  (CachixConfig.auth_token mycache one_secret_world).1 = Ok "s3cr3t"
  ∧ (CachixConfig.signing_key cachix_without_token one_secret_world).1
    = Err IOError
  ∧ (GiteaConfig.token gitea_with_oauth one_secret_world).1 = Err IOError
  ∧ (GiteaConfig.oauth_secret gitea_with_oauth one_secret_world).1
    = Err IOError
  ∧ (GitHubConfig.oauth_secret github_with_oauth one_secret_world).1
    = Err IOError.
Proof.
  split.
  { apply (proj1 (proj2 (accessors_return_file_content one_secret_world
                           "/run/secrets/tok")) mycache).
    reflexivity. }
  split.
  { apply (proj1 (accessors_return_file_content one_secret_world
                    "/run/secrets/key") cachix_without_token).
    reflexivity. }
  split.
  { apply (proj1 (proj2 (proj2 (accessors_return_file_content
                                  one_secret_world "gitea-token")))
             gitea_with_oauth).
    reflexivity. }
  split.
  { destruct (accessors_return_file_content one_secret_world
                "gitea-oauth-secret") as (_ & _ & _ & _ & H & _).
    apply (H gitea_with_oauth). reflexivity. }
  destruct (accessors_return_file_content one_secret_world
              "github-oauth-secret") as (_ & _ & _ & _ & _ & _ & _ & _ & H & _).
  apply (H github_with_oauth). reflexivity.
Defined.

(** ** The Cachix environment *)

(** X5: whatever the configuration and whatever is on disk, the Cachix
    environment has exactly the two variables CACHIX_SIGNING_KEY and
    CACHIX_AUTH_TOKEN, and the same handles in every world. *)
Theorem environment_has_both_variables (c : CachixConfig.t) (w w' : world) :
  ∃ env, CachixConfig.environment c w = (Ok env, w)
         ∧ CachixConfig.environment c w' = (Ok env, w')
         ∧ dom env = {["CACHIX_SIGNING_KEY"; "CACHIX_AUTH_TOKEN"]}.
Proof.
  eexists. split; [reflexivity|]. split; [reflexivity|].
  rewrite !dom_insert_L, dom_empty_L. set_solver.
Qed.

(** ** Required keys, unknown keys and defaults *)

(** Refutes a successful validation of a document that lacks key [k]. *)
Ltac missing_key Hin Hk :=
  repeat (apply elem_of_cons in Hin as [->|Hin];
          [ lazymatch type of Hk with
            | _ !! ?k = None =>
                match goal with
                | Hf : required _ k _ = Ok _ |- _ =>
                    unfold required in Hf; rewrite Hk in Hf; discriminate
                end
            end
          | ]);
  inversion Hin.

(** X6: every field of the root declared without a default must be in the
    document, also the fields typed [T | None] (cachix, gitea, github,
    eval_worker_count, outputs_path, job_report_limit): a document that
    leaves one out is rejected. *)
Theorem root_fields_required (rd : readers) (pol : union_policy) :
  requires (BuildbotNixConfig.model_validate rd pol) root_required_keys.
Proof.
  intros m k Hin Hk.
  destruct (BuildbotNixConfig.model_validate rd pol (JDict m)) as [c|e] eqn:E.
  - exfalso. unfold BuildbotNixConfig.model_validate, model_validator,
      BuildbotNixConfig.validate_fields in E.
    split_fields E. unfold root_required_keys in Hin. missing_key Hin Hk.
  - f_equal. eapply BuildbotNixConfig_only. exact E.
Qed.

(** Settles one [requires] statement: [unf] unfolds the model in [E],
    [only] is the model's lemma on its errors. *)
Ltac prove_requires unf only :=
  let m := fresh "m" in let k := fresh "k" in
  let Hin := fresh "Hin" in let Hk := fresh "Hk" in
  intros m k Hin Hk;
  match goal with
  | |- ?r = _ =>
      let E := fresh "E" in
      destruct r as [?|?] eqn:E;
      [ exfalso; unf E; unfold model_validator in E;
        split_fields E; missing_key Hin Hk
      | f_equal; eapply only; exact E ]
  end.

(** X7: the blocks have required keys of their own, again including the
    ones typed [T | None]: a Cachix block needs name, signing_key_file and
    auth_token_file; a Gitea block instance_url, topic, oauth_id and
    oauth_secret_file; a GitHub block auth_type, topic, oauth_id and
    oauth_secret_file; a post-build step name, environment and command. *)
Theorem block_fields_required (rd : readers) (pol : union_policy) :
  requires CachixConfig.model_validate
    ["name"; "signing_key_file"; "auth_token_file"]
  ∧ requires GiteaConfig.model_validate
      ["instance_url"; "topic"; "oauth_id"; "oauth_secret_file"]
  ∧ requires (GitHubConfig.model_validate rd pol)
      ["auth_type"; "topic"; "oauth_id"; "oauth_secret_file"]
  ∧ requires PostBuildStep.model_validate
      ["name"; "environment"; "command"].
Proof.
  repeat apply conj.
  - prove_requires
      ltac:(fun E => unfold CachixConfig.model_validate,
                       CachixConfig.validate_fields in E)
      CachixConfig_only.
  - prove_requires
      ltac:(fun E => unfold GiteaConfig.model_validate,
                       GiteaConfig.validate_fields in E)
      GiteaConfig_only.
  - prove_requires
      ltac:(fun E => unfold GitHubConfig.model_validate,
                       GitHubConfig.validate_fields in E)
      (GitHubConfig_only rd pol).
  - prove_requires
      ltac:(fun E => unfold PostBuildStep.model_validate,
                       PostBuildStep.validate_fields in E)
      PostBuildStep_only.
Qed.

Lemma block_fields_required_witness :
  CachixConfig.model_validate
    (JDict (<["name" := JStr "mycache"]>
            (<["auth_token_file" := JStr "/run/secrets/tok"]> ∅)))
  = Err ValidationError
  ∧ GiteaConfig.model_validate (JDict (delete "topic" gitea_fields))
    = Err ValidationError.
Proof.
  destruct (block_fields_required no_coercion FirstMatch) as (Hc & Hg & _).
  split.
  - apply (Hc _ "signing_key_file"); [|vm_compute; reflexivity].
    apply elem_of_cons; right. apply elem_of_cons; left. reflexivity.
  - apply (Hg _ "topic"); [|vm_compute; reflexivity].
    apply elem_of_cons; right. apply elem_of_cons; left. reflexivity.
Defined.

Lemma root_fields_required_witness :
  BuildbotNixConfig.model_validate no_coercion MostFieldsSet
    (JDict (delete "cachix" (root_fields (JStr "none"))))
  = Err ValidationError.
Proof.
  apply (root_fields_required no_coercion MostFieldsSet _ "cachix").
  - do 3 (apply elem_of_cons; right). apply elem_of_cons; left. reflexivity.
  - vm_compute; reflexivity.
Defined.

(** Settles one [ignores] statement: [unf] unfolds the model. *)
Ltac prove_ignores unf :=
  let m := fresh "m" in let k := fresh "k" in let v := fresh "v" in
  let Hk := fresh "Hk" in
  intros m k v Hk; repeat (apply not_elem_of_cons in Hk as [? Hk]);
  unf; unfold model_validator;
  fields_of_changed_document; reflexivity.

(** X8: keys that name no field are ignored: adding one to a document
    changes nothing in the outcome of validation, for the root and for
    each block. *)
Theorem unknown_keys_ignored (rd : readers) (pol : union_policy) :
  ignores (BuildbotNixConfig.model_validate rd pol) root_keys
  ∧ ignores CachixConfig.model_validate
      ["name"; "signing_key_file"; "auth_token_file"]
  ∧ ignores GiteaConfig.model_validate
      ["instance_url"; "topic"; "token_file"; "webhook_secret_file";
       "project_cache_file"; "oauth_id"; "oauth_secret_file"]
  ∧ ignores (GitHubConfig.model_validate rd pol)
      ["auth_type"; "topic"; "project_cache_file"; "webhook_secret_file";
       "oauth_id"; "oauth_secret_file"]
  ∧ ignores PostBuildStep.model_validate ["name"; "environment"; "command"]
  ∧ ignores Interpolate.model_validate ["_type"; "nix_type"; "value"].
Proof.
  repeat apply conj.
  - prove_ignores
      ltac:(unfold root_keys, root_required_keys in *;
            unfold BuildbotNixConfig.model_validate,
              BuildbotNixConfig.validate_fields).
  - prove_ignores
      ltac:(unfold CachixConfig.model_validate,
              CachixConfig.validate_fields).
  - prove_ignores
      ltac:(unfold GiteaConfig.model_validate, GiteaConfig.validate_fields).
  - prove_ignores
      ltac:(unfold GitHubConfig.model_validate,
              GitHubConfig.validate_fields).
  - prove_ignores
      ltac:(unfold PostBuildStep.model_validate,
              PostBuildStep.validate_fields).
  - intros m k v Hk. repeat (apply not_elem_of_cons in Hk as [? Hk]).
    unfold Interpolate.model_validate, model_validator,
      Interpolate.validate_fields, required_by_alias_or_name.
    rewrite lookup_insert_ne by done.
    fields_of_changed_document. reflexivity.
Qed.

Lemma unknown_keys_ignored_witness :
  Interpolate.model_validate
    (JDict (<["comment" := JStr "the revision"]>
              (<["_type" := JStr "Interpolate"]>
                 (<["value" := JStr "prop:revision"]> ∅))))
  = Interpolate.model_validate
      (JDict (<["_type" := JStr "Interpolate"]>
                (<["value" := JStr "prop:revision"]> ∅))).
Proof.
  destruct (unknown_keys_ignored no_coercion FirstMatch)
    as (_ & _ & _ & _ & _ & H).
  apply H.
  intros Hin. repeat (apply elem_of_cons in Hin as [Hin|Hin]; [discriminate|]).
  inversion Hin.
Defined.

Lemma path_validator_ok (v : json) (p : Path) :
  path_validator v = Ok p → ∃ s, v = JStr s ∧ p = Path_of s.
Proof. destruct v; simpl; try discriminate. intros [= <-]. eauto. Qed.

(** Settles one [taken_from_document] statement: [unf] unfolds the model
    in [E], [only] is the model's lemma on its errors. *)
Ltac prove_taken unf only :=
  let m := fresh "m" in let v := fresh "v" in let Hm := fresh "Hm" in
  intros m v Hm;
  match goal with
  | |- ?P ∧ (_ → ?r = _) =>
      let Hok := fresh "Hok" in
      assert (Hok : P);
      [ let c := fresh "c" in let E := fresh "E" in
        intros c E; unf E; unfold model_validator in E;
        split_fields E; injection E as <-; cbn;
        lazymatch type of Hm with
        | _ !! ?k = _ =>
            match goal with
            | Hf : with_default _ k _ _ = Ok _ |- _ =>
                unfold with_default in Hf; rewrite Hm in Hf;
                apply path_validator_ok in Hf; exact Hf
            end
        end
      | split; [exact Hok|];
        let Hv := fresh "Hv" in let E := fresh "E" in
        intros Hv; destruct r as [c|e] eqn:E;
        [ exfalso; destruct (Hok c eq_refl) as (? & ? & _);
          eapply Hv; eassumption
        | f_equal; eapply only; exact E ] ]
  end.

(** X9: a field with a default, when its key is in the document, takes
    the path built from the document's string ([Path(s)], so "a//b/" is
    held as "a/b"), not the default; a value that is no string is rejected
    (the default is never validated, a given value always is). *)
Theorem given_paths_override_defaults (rd : readers) (pol : union_policy) :
  taken_from_document GiteaConfig.model_validate
    "token_file" GiteaConfig.token_file
  ∧ taken_from_document GiteaConfig.model_validate
      "webhook_secret_file" GiteaConfig.webhook_secret_file
  ∧ taken_from_document GiteaConfig.model_validate
      "project_cache_file" GiteaConfig.project_cache_file
  ∧ taken_from_document (GitHubConfig.model_validate rd pol)
      "project_cache_file" GitHubConfig.project_cache_file
  ∧ taken_from_document (GitHubConfig.model_validate rd pol)
      "webhook_secret_file" GitHubConfig.webhook_secret_file
  ∧ taken_from_document (GitHubAppConfig.model_validate rd)
      "installation_token_map_file"
      GitHubAppConfig.installation_token_map_file
  ∧ taken_from_document (GitHubAppConfig.model_validate rd)
      "project_id_map_file" GitHubAppConfig.project_id_map_file
  ∧ taken_from_document (GitHubAppConfig.model_validate rd)
      "jwt_token_map" GitHubAppConfig.jwt_token_map
  ∧ taken_from_document (BuildbotNixConfig.model_validate rd pol)
      "nix_workers_secret_file" BuildbotNixConfig.nix_workers_secret_file.
Proof.
  pose proof (model_validator_only _ (GitHubAppConfig_only rd)) as Happ.
  repeat apply conj.
  - prove_taken
      ltac:(fun E => unfold GiteaConfig.model_validate,
                       GiteaConfig.validate_fields in E)
      GiteaConfig_only.
  - prove_taken
      ltac:(fun E => unfold GiteaConfig.model_validate,
                       GiteaConfig.validate_fields in E)
      GiteaConfig_only.
  - prove_taken
      ltac:(fun E => unfold GiteaConfig.model_validate,
                       GiteaConfig.validate_fields in E)
      GiteaConfig_only.
  - prove_taken
      ltac:(fun E => unfold GitHubConfig.model_validate,
                       GitHubConfig.validate_fields in E)
      (GitHubConfig_only rd pol).
  - prove_taken
      ltac:(fun E => unfold GitHubConfig.model_validate,
                       GitHubConfig.validate_fields in E)
      (GitHubConfig_only rd pol).
  - prove_taken
      ltac:(fun E => unfold GitHubAppConfig.model_validate,
                       GitHubAppConfig.validate_fields in E)
      Happ.
  - prove_taken
      ltac:(fun E => unfold GitHubAppConfig.model_validate,
                       GitHubAppConfig.validate_fields in E)
      Happ.
  - prove_taken
      ltac:(fun E => unfold GitHubAppConfig.model_validate,
                       GitHubAppConfig.validate_fields in E)
      Happ.
  - prove_taken
      ltac:(fun E => unfold BuildbotNixConfig.model_validate,
                       BuildbotNixConfig.validate_fields in E)
      (BuildbotNixConfig_only rd pol).
Qed.

(** X10: the JWT token file of a GitHub App block, the one default the
    other statements leave out: "github-app-jwt-token" when the key is
    missing, and the block validates without the key. *)
Theorem jwt_token_map_default (rd : readers) :
  defaults_to (GitHubAppConfig.model_validate rd)
    "jwt_token_map" GitHubAppConfig.jwt_token_map "github-app-jwt-token".
Proof.
  prove_default
    ltac:(unfold GitHubAppConfig.model_validate,
            GitHubAppConfig.validate_fields in *).
Qed.

Lemma given_paths_override_defaults_witness :
  (∃ c, GiteaConfig.model_validate
          (JDict (<["token_file" := JStr "/run//secrets/./gitea/"]>
                    gitea_fields))
        = Ok c
        ∧ GiteaConfig.token_file c = "/run/secrets/gitea")
  ∧ GiteaConfig.model_validate
      (JDict (<["token_file" := JInt 3]> gitea_fields))
    = Err ValidationError.
Proof.
  destruct (given_paths_override_defaults no_coercion FirstMatch)
    as (H & _).
  split.
  - destruct (H (<["token_file" := JStr "/run//secrets/./gitea/"]>
                   gitea_fields) (JStr "/run//secrets/./gitea/")
                (lookup_insert_eq _ _ _)) as [Hok _].
    eexists. split; [vm_compute; reflexivity|].
    destruct (Hok _ ltac:(vm_compute; reflexivity)) as (p & Hp & Hc).
    injection Hp as <-. rewrite Hc. vm_compute. reflexivity.
  - destruct (H (<["token_file" := JInt 3]> gitea_fields) (JInt 3)
                (lookup_insert_eq _ _ _)) as [_ Hbad].
    apply Hbad. intros p; discriminate.
Defined.

Lemma jwt_token_map_default_witness :
  ∃ c, GitHubAppConfig.model_validate no_coercion app_doc = Ok c
       ∧ GitHubAppConfig.jwt_token_map c = "github-app-jwt-token".
Proof.
  eexists. split; [vm_compute; reflexivity|].
  refine (proj1 (jwt_token_map_default no_coercion
                   (<["id" := JInt 1234]>
                      (<["secret_key_file" := JStr "github-app-secret-key"]>
                         ∅)) _ _) _);
    vm_compute; reflexivity.
Defined.

(** ** Interpolate and post-build steps *)

Lemma Interpolate_validate_by_alias (t v : string) :
  Interpolate.model_validate
    (JDict (<["_type" := JStr t]> (<["value" := JStr v]> ∅)))
  = Ok {| Interpolate.nix_type := t; Interpolate.value := v |}.
Proof.
  unfold Interpolate.model_validate, model_validator,
    Interpolate.validate_fields, required_by_alias_or_name, required.
  rewrite lookup_insert_eq.
  rewrite lookup_insert_ne by done. rewrite lookup_insert_eq.
  reflexivity.
Qed.

Lemma Interpolate_validate_by_name (t v : string) :
  Interpolate.model_validate
    (JDict (<["nix_type" := JStr t]> (<["value" := JStr v]> ∅)))
  = Ok {| Interpolate.nix_type := t; Interpolate.value := v |}.
Proof.
  unfold Interpolate.model_validate, model_validator,
    Interpolate.validate_fields, required_by_alias_or_name, required.
  rewrite !(lookup_insert_ne _ _ "_type") by done. rewrite lookup_empty.
  rewrite lookup_insert_eq.
  rewrite lookup_insert_ne by done. rewrite lookup_insert_eq.
  reflexivity.
Qed.

(** X11: a dumped Interpolate validates back to itself in either mode: by
    alias, and also by field name, since the model is populated by name as
    well. *)
Theorem interpolate_dump_validates_back (by_alias : bool)
    (i : Interpolate.t) :
  Interpolate.model_validate (Interpolate.model_dump by_alias i) = Ok i.
Proof.
  destruct i as [t v]. destruct by_alias.
  - apply Interpolate_validate_by_alias.
  - apply Interpolate_validate_by_name.
Qed.

(** X12: when a document has the discriminator under both keys, the alias
    "_type" decides and "nix_type" is not looked at: the outcome is the
    same whatever is bound to "nix_type", valid or not. *)
Theorem interpolate_alias_takes_precedence (m : gmap string json)
    (a x : json) :
  m !! "_type" = Some a →
  Interpolate.model_validate (JDict (<["nix_type" := x]> m))
  = Interpolate.model_validate (JDict m).
Proof.
  intros Ha.
  unfold Interpolate.model_validate, model_validator,
    Interpolate.validate_fields, required_by_alias_or_name.
  rewrite lookup_insert_ne by done. rewrite Ha.
  fields_of_changed_document. reflexivity.
Qed.

Lemma interpolate_alias_takes_precedence_witness :
  Interpolate.model_validate
    (JDict (<["nix_type" := JInt 7]>
              (<["_type" := JStr "Interpolate"]>
                 (<["value" := JStr "prop:revision"]> ∅))))
  = Ok {| Interpolate.nix_type := "Interpolate";
          Interpolate.value := "prop:revision" |}.
Proof.
  rewrite (interpolate_alias_takes_precedence _ (JStr "Interpolate"))
    by (vm_compute; reflexivity).
  vm_compute; reflexivity.
Defined.

Lemma rmapM_Forall2 {X A} (f : X → result A) (l : list X) (ys : list A) :
  rmapM f l = Ok ys → Forall2 (λ x y, f x = Ok y) l ys.
Proof.
  revert ys. induction l as [|x l IH]; simpl; intros ys H.
  - injection H as <-. constructor.
  - apply rbind_ok_inv in H as (y & Hy & H).
    apply rbind_ok_inv in H as (ys' & Hys & H).
    injection H as <-. constructor; eauto.
Qed.

(** X16: a step document is rejected as soon as one element of its
    command list is neither a string nor an object that validates as an
    Interpolate (a number, null, a list, an object without "value"...). *)
Theorem bad_argument_rejects_step (m : gmap string json) (l : list json)
    (x : json) (e : error) :
  m !! "command" = Some (JList l) →
  x ∈ l →
  (∀ s, x ≠ JStr s) →
  Interpolate.model_validate x = Err e →
  PostBuildStep.model_validate (JDict m) = Err ValidationError.
Proof.
  intros Hm Hx Hs He.
  destruct (PostBuildStep.model_validate (JDict m)) as [s|e'] eqn:E.
  - exfalso.
    unfold PostBuildStep.model_validate, model_validator,
      PostBuildStep.validate_fields in E.
    split_fields E.
    match goal with
    | Hc : required m "command" _ = Ok _ |- _ =>
        unfold required in Hc; rewrite Hm in Hc; simpl in Hc;
        apply rmapM_Forall2 in Hc;
        apply list_elem_of_lookup in Hx as (n & Hn);
        destruct (Forall2_lookup_l _ _ _ _ _ Hc Hn) as (a & _ & Ha)
    end.
    unfold PostBuildStep.str_or_Interpolate, str_or_model in Ha.
    destruct x; simpl in Ha;
      first [ discriminate
            | exact (Hs _ eq_refl)
            | unfold Interpolate.model_validate, model_validator in He;
              rewrite He in Ha; discriminate ].
  - f_equal. eapply PostBuildStep_only. exact E.
Qed.

Lemma bad_argument_rejects_step_witness :
  PostBuildStep.model_validate
    (JDict (<["name" := JStr "echo"]>
              (<["environment" := JDict ∅]>
                 (<["command" := JList [JStr "echo"; JInt 3]]> ∅))))
  = Err ValidationError.
Proof.
  apply (bad_argument_rejects_step _ [JStr "echo"; JInt 3] (JInt 3)
           ValidationError).
  - vm_compute; reflexivity.
  - apply elem_of_cons; right. apply elem_of_cons; left. reflexivity.
  - intros s; discriminate.
  - reflexivity.
Defined.

(** ** Blocks inside the root, and secrets of a validated document *)

(** Settles one [validated_by] statement: [unf] unfolds the model in [E],
    [only] is the model's lemma on its errors. *)
Ltac prove_validated_by unf only :=
  let m := fresh "m" in let v := fresh "v" in let Hm := fresh "Hm" in
  intros m v Hm;
  match goal with
  | |- ?P ∧ (∀ e, _ → ?r = _) =>
      let Hok := fresh "Hok" in
      assert (Hok : P);
      [ let c := fresh "c" in let E := fresh "E" in
        intros c E; unf E; unfold model_validator in E;
        split_fields E; injection E as <-; cbn;
        lazymatch type of Hm with
        | _ !! ?k = _ =>
            match goal with
            | Hf : required _ k _ = Ok _ |- _ =>
                unfold required in Hf; rewrite Hm in Hf; exact Hf
            end
        end
      | split; [exact Hok|];
        let e := fresh "e" in let He := fresh "He" in let E := fresh "E" in
        intros e He; destruct r as [c|e'] eqn:E;
        [ rewrite (Hok c eq_refl) in He; discriminate
        | f_equal; eapply only; exact E ] ]
  end.

(** X17: the blocks of the root are validated on their own and handed on:
    under cachix, gitea and github, null gives no block and anything else
    must validate as the block's model; post_build_steps must be a list of
    valid steps; auth_type of a GitHub block must resolve to one of its
    two models.  A block that is rejected rejects the whole document. *)
Theorem nested_blocks_validated (rd : readers) (pol : union_policy) :
  validated_by (BuildbotNixConfig.model_validate rd pol) "cachix"
    (optional CachixConfig.model_validate) BuildbotNixConfig.cachix
  ∧ validated_by (BuildbotNixConfig.model_validate rd pol) "gitea"
      (optional GiteaConfig.model_validate) BuildbotNixConfig.gitea
  ∧ validated_by (BuildbotNixConfig.model_validate rd pol) "github"
      (optional (GitHubConfig.model_validate rd pol)) BuildbotNixConfig.github
  ∧ validated_by (BuildbotNixConfig.model_validate rd pol) "post_build_steps"
      (list_validator PostBuildStep.model_validate)
      BuildbotNixConfig.post_build_steps
  ∧ validated_by (GitHubConfig.model_validate rd pol) "auth_type"
      (GitHubConfig.auth_type_validator rd pol) GitHubConfig.auth_type.
Proof.
  repeat apply conj.
  - prove_validated_by
      ltac:(fun E => unfold BuildbotNixConfig.model_validate,
                       BuildbotNixConfig.validate_fields in E)
      (BuildbotNixConfig_only rd pol).
  - prove_validated_by
      ltac:(fun E => unfold BuildbotNixConfig.model_validate,
                       BuildbotNixConfig.validate_fields in E)
      (BuildbotNixConfig_only rd pol).
  - prove_validated_by
      ltac:(fun E => unfold BuildbotNixConfig.model_validate,
                       BuildbotNixConfig.validate_fields in E)
      (BuildbotNixConfig_only rd pol).
  - prove_validated_by
      ltac:(fun E => unfold BuildbotNixConfig.model_validate,
                       BuildbotNixConfig.validate_fields in E)
      (BuildbotNixConfig_only rd pol).
  - prove_validated_by
      ltac:(fun E => unfold GitHubConfig.model_validate,
                       GitHubConfig.validate_fields in E)
      (GitHubConfig_only rd pol).
Qed.

Lemma nested_blocks_validated_witness :
  (∃ c, BuildbotNixConfig.model_validate no_coercion FirstMatch
          (JDict (<["cachix" := cachix_doc]> (root_fields (JStr "none"))))
        = Ok c
        ∧ optional CachixConfig.model_validate cachix_doc
          = Ok (BuildbotNixConfig.cachix c))
  ∧ BuildbotNixConfig.model_validate no_coercion FirstMatch
      (JDict (<["cachix" := JDict ∅]> (root_fields (JStr "none"))))
    = Err ValidationError.
Proof.
  destruct (nested_blocks_validated no_coercion FirstMatch) as (H & _).
  split.
  - eexists. split; [vm_compute; reflexivity|].
    refine (proj1 (H (<["cachix" := cachix_doc]>
                        (root_fields (JStr "none"))) _ _) _ _);
      vm_compute; reflexivity.
  - refine (proj2 (H (<["cachix" := JDict ∅]> (root_fields (JStr "none")))
                     _ _) ValidationError _);
      vm_compute; reflexivity.
Defined.

(** X18: building an object from a document and then asking it for a
    secret: a rejected document leads to no read at all; a Gitea block
    without token_file reads "gitea-token", and a root document without
    nix_workers_secret_file reads "buildbot-nix-workers", once each, and
    returns that file's content. *)
Theorem secrets_of_validated_document (rd : readers) (pol : union_policy)
    (m : gmap string json) (w : world) :
  (∀ e, GiteaConfig.model_validate (JDict m) = Err e →
        bind (GiteaConfig.construct (JDict m)) GiteaConfig.token w
        = (Err e, w))
  ∧ (∀ c, GiteaConfig.model_validate (JDict m) = Ok c →
          m !! "token_file" = None →
          bind (GiteaConfig.construct (JDict m)) GiteaConfig.token w
          = (from_option Ok (Err IOError) (files w "gitea-token"),
             after_read "gitea-token" w))
  ∧ (∀ c, BuildbotNixConfig.model_validate rd pol (JDict m) = Ok c →
          m !! "nix_workers_secret_file" = None →
          bind (BuildbotNixConfig.construct rd pol (JDict m))
               BuildbotNixConfig.nix_workers_secret w
          = (from_option Ok (Err IOError) (files w "buildbot-nix-workers"),
             after_read "buildbot-nix-workers" w)).
Proof.
  assert (Hread : ∀ p, read_secret_file p w
                       = (from_option Ok (Err IOError) (files w p),
                          after_read p w)).
  { intros p. unfold read_secret_file, after_read.
    destruct (files w p); reflexivity. }
  repeat apply conj.
  - intros e He. unfold bind.
    rewrite (GiteaConfig_construct (JDict m) w), He. reflexivity.
  - intros c Hc Hk. unfold bind.
    rewrite (GiteaConfig_construct (JDict m) w), Hc.
    unfold GiteaConfig.token.
    replace (GiteaConfig.token_file c) with ("gitea-token" : Path);
      [apply Hread|].
    unfold GiteaConfig.model_validate, model_validator,
      GiteaConfig.validate_fields in Hc.
    split_fields Hc. injection Hc as <-. cbn.
    match goal with
    | Hd : with_default m "token_file" _ _ = Ok _ |- _ =>
        rewrite (with_default_absent _ _ _ _ Hk) in Hd; congruence
    end.
  - intros c Hc Hk. unfold bind.
    rewrite (BuildbotNixConfig_construct rd pol (JDict m) w), Hc.
    unfold BuildbotNixConfig.nix_workers_secret.
    replace (BuildbotNixConfig.nix_workers_secret_file c)
      with ("buildbot-nix-workers" : Path); [apply Hread|].
    unfold BuildbotNixConfig.model_validate, model_validator,
      BuildbotNixConfig.validate_fields in Hc.
    split_fields Hc. injection Hc as <-. cbn.
    match goal with
    | Hd : with_default m "nix_workers_secret_file" _ _ = Ok _ |- _ =>
        rewrite (with_default_absent _ _ _ _ Hk) in Hd; congruence
    end.
Qed.

Lemma secrets_of_validated_document_witness :
  bind (GiteaConfig.construct (JDict gitea_fields)) GiteaConfig.token
       gitea_world
  = (Ok "t0k3n", after_read "gitea-token" gitea_world)
  ∧ bind (GiteaConfig.construct (JDict ∅)) GiteaConfig.token gitea_world
    = (Err ValidationError, gitea_world)
  ∧ bind (BuildbotNixConfig.construct no_coercion FirstMatch
            (JDict (root_fields (JStr "none"))))
         BuildbotNixConfig.nix_workers_secret gitea_world
    = (Err IOError, after_read "buildbot-nix-workers" gitea_world).
Proof.
  split; [|split].
  - eapply (proj1 (proj2 (secrets_of_validated_document no_coercion
                            FirstMatch gitea_fields gitea_world)));
      vm_compute; reflexivity.
  - apply (proj1 (secrets_of_validated_document no_coercion FirstMatch ∅
                    gitea_world)).
    vm_compute; reflexivity.
  - eapply (proj2 (proj2 (secrets_of_validated_document no_coercion
                            FirstMatch (root_fields (JStr "none"))
                            gitea_world)));
      vm_compute; reflexivity.
Defined.
